(** * sdcli: a client binding for the Stable Diffusion web UI API

    A shallow embedding of [client.go] (package [sdcli]) and the properties
    of its request pipeline: client construction, the shared [doReq]
    routine, the image helpers and the post-decode enrichment of the
    image endpoints.

    Conventions.
    - A Go [string] is a [string] (a sequence of bytes), a [[]byte] is a
      [list byte], a Go [int] / [int64] is a [Z]; no arithmetic is done on
      them by the client, so no wrap-around appears.
    - A [float32] is its IEEE-754 bit pattern, a [Z] below [2^32].
    - A slice is a [list]: the client only ranges over slices, takes their
      length or serialises them under [omitempty], and none of these tells
      a nil slice from an empty one.
    - A function returning [(T, error)] returns a sum or a pair; code that
      can panic or return early with an [*Error], and whose HTTP traffic
      matters, lives in the monad [M], which also records a trace of the
      library calls made.
    - The parts of the Go standard library that the client calls and
      that are plain byte manipulation ([strings.SplitN],
      [base64.StdEncoding], the [fmt] verbs, the [omitempty] rule of
      [encoding/json]) are written out; the PNG codec, the JSON decoder,
      float formatting, JSON string quoting and URL validation are the
      fields of the class [Stdlib], over which everything is stated. *)

From Stdlib Require Import ZArith List String Ascii Bool Lia DecimalString.
From stdpp Require Import base strings gmap.
Import ListNotations.

#[local] Set Warnings "-register-all".

Local Open Scope list_scope.
Local Open Scope string_scope.
Local Open Scope Z_scope.

(** ** Go basics *)

Abbreviation bytes := (list Byte.byte).

(** [string(data)] and [[]byte(s)]. *)
Definition string_of_bytes (data : bytes) : string := string_of_list_byte data.
Definition bytes_of_string (s : string) : bytes := list_byte_of_string s.

(** [len(s)] for a string. *)
Definition len (s : string) : Z := Z.of_nat (String.length s).

(** [s[lo:hi]] and [s[lo:]] (bounds are within the string wherever the
    functions below use them). *)
Definition slice (s : string) (lo hi : Z) : string :=
  substring (Z.to_nat lo) (Z.to_nat (hi - lo)) s.
Definition slice_from (s : string) (lo : Z) : string :=
  substring (Z.to_nat lo) (String.length s - Z.to_nat lo)%nat s.

(** The verbs of [fmt] that the client uses: [%d] on an [int], [%v] on a
    [bool]. ([%s] on a string is the string itself.) *)
Definition fmt_d (n : Z) : string := NilZero.string_of_int (Z.to_int n).
Definition fmt_v_bool (b : bool) : string := if b then "true" else "false".

(** Values of type [error] coming out of the standard library. *)
Inductive GoError : Type :=
| CorruptInputError (off : Z)   (* encoding/base64 *)
| ErrorString (msg : string).   (* any other error, by its message *)



(** ** [strings] *)

(** [strings.IndexByte]: the index of the first [c] in [s], or [-1]. *)
Fixpoint IndexByte (s : string) (c : ascii) : Z :=
  match s with
  | EmptyString => -1
  | String a rest =>
      if Ascii.eqb a c then 0
      else let m := IndexByte rest c in
           if m <? 0 then -1 else m + 1
  end.

(** [strings.Count] for a one-byte separator. *)
Fixpoint Count (s : string) (c : ascii) : Z :=
  match s with
  | EmptyString => 0
  | String a rest => (if Ascii.eqb a c then 1 else 0) + Count rest c
  end.

(** The loop of [strings.genSplit]: at most [fuel] cuts, then the unsplit
    remainder. *)
Fixpoint genSplit_loop (fuel : nat) (s : string) (sep : ascii) : list string :=
  match fuel with
  | O => [s]
  | S fuel' =>
      let m := IndexByte s sep in
      if m <? 0 then [s]
      else slice s 0 m :: genSplit_loop fuel' (slice_from s (m + 1)) sep
  end.

(** [strings.SplitN(s, sep, n)] for a separator of one byte, the only kind
    the client passes. [n = 0] gives nil, [n < 0] all substrings, [n > 0]
    at most [n] substrings, the last being the unsplit remainder. *)
Definition SplitN (s : string) (sep : ascii) (n : Z) : list string :=
  if n =? 0 then []
  else
    let n := if n <? 0 then Count s sep + 1 else n in
    let n := if n >? len s + 1 then len s + 1 else n in
    genSplit_loop (Z.to_nat (n - 1)) s sep.

(** ** [encoding/base64]: [StdEncoding] *)

Module base64.

Definition encodeStd : string :=
  "ABCDEFGHIJKLMNOPQRSTUVWXYZabcdefghijklmnopqrstuvwxyz0123456789+/".

Definition padChar : ascii := "="%char.

(** The alphabet character of a 6-bit value. *)
Definition encodeChar (v : Z) : ascii :=
  match String.get (Z.to_nat (Z.land v 63)) encodeStd with
  | Some c => c
  | None => padChar
  end.

Definition byteZ (b : Byte.byte) : Z := Z.of_N (Byte.to_N b).

Definition byte_of_Z (v : Z) : Byte.byte :=
  match Byte.of_N (Z.to_N (Z.land v 255)) with
  | Some b => b
  | None => Byte.x00
  end.

(** [StdEncoding.EncodeToString]. *)
Fixpoint EncodeToString (src : bytes) : string :=
  match src with
  | [] => ""
  | [b0] =>
      let val := Z.shiftl (byteZ b0) 16 in
      String (encodeChar (Z.shiftr val 18))
        (String (encodeChar (Z.shiftr val 12))
           (String padChar (String padChar "")))
  | [b0; b1] =>
      let val := Z.lor (Z.shiftl (byteZ b0) 16) (Z.shiftl (byteZ b1) 8) in
      String (encodeChar (Z.shiftr val 18))
        (String (encodeChar (Z.shiftr val 12))
           (String (encodeChar (Z.shiftr val 6)) (String padChar "")))
  | b0 :: b1 :: b2 :: rest =>
      let val := Z.lor (Z.lor (Z.shiftl (byteZ b0) 16) (Z.shiftl (byteZ b1) 8))
                       (byteZ b2) in
      String (encodeChar (Z.shiftr val 18))
        (String (encodeChar (Z.shiftr val 12))
           (String (encodeChar (Z.shiftr val 6))
              (String (encodeChar val) (EncodeToString rest))))
  end.

(** [decodeMap]: the 6-bit value of an alphabet character ([0xff] in Go
    for the others, [None] here). *)
Definition decodeMap (c : ascii) : option Z :=
  let m := IndexByte encodeStd c in
  if m <? 0 then None else Some m.

Definition isNewline (c : ascii) : bool :=
  Ascii.eqb c "010"%char || Ascii.eqb c "013"%char.

(** The bytes of a quantum of [dlen] characters with 6-bit values [d]
    (most significant first): [dlen - 1] bytes. *)
Definition quantumBytes (d : list Z) (dlen : nat) : bytes :=
  let val := Z.lor (Z.lor (Z.shiftl (nth 0 d 0) 18) (Z.shiftl (nth 1 d 0) 12))
                   (Z.lor (Z.shiftl (nth 2 d 0) 6) (nth 3 d 0)) in
  firstn (dlen - 1)
    [byte_of_Z (Z.shiftr val 16); byte_of_Z (Z.shiftr val 8); byte_of_Z val].

(** After the padding of the last quantum: newlines are skipped, anything
    else is trailing garbage. [si] is the index of the head of [src]. *)
Fixpoint afterPadding (src : string) (si : Z) : option GoError :=
  match src with
  | EmptyString => None
  | String c rest =>
      if isNewline c then afterPadding rest (si + 1)
      else Some (CorruptInputError si)
  end.

(** After the first [=] of a quantum of two characters: newlines are
    skipped and a second [=] is required. [total] is [len(src)]. *)
Fixpoint secondPadding (src : string) (si total : Z) : GoError + (string * Z) :=
  match src with
  | EmptyString => inl (CorruptInputError total)
  | String c rest =>
      if isNewline c then secondPadding rest (si + 1) total
      else if Ascii.eqb c padChar then inr (rest, si + 1)
      else inl (CorruptInputError (si - 1))
  end.

(** [Encoding.Decode], one input byte per step: [d] holds the values of
    the current quantum, [out] the bytes decoded so far, [si] the index
    of the head of [src]. *)
Fixpoint decode (src : string) (si total : Z) (d : list Z) (out : bytes)
  : GoError + bytes :=
  match src with
  | EmptyString =>
      match d with
      | [] => inr out
      | _ => inl (CorruptInputError (si - Z.of_nat (length d)))
      end
  | String c rest =>
      match decodeMap c with
      | Some v =>
          let d' := (d ++ [v])%list in
          if (length d' =? 4)%nat
          then decode rest (si + 1) total [] (out ++ quantumBytes d' 4)%list
          else decode rest (si + 1) total d' out
      | None =>
          if isNewline c then decode rest (si + 1) total d out
          else if negb (Ascii.eqb c padChar) then inl (CorruptInputError si)
          else
            match length d with
            | 2%nat =>
                match secondPadding rest (si + 1) total with
                | inl e => inl e
                | inr (rest', si') =>
                    match afterPadding rest' si' with
                    | Some e => inl e
                    | None => inr (out ++ quantumBytes d 2)%list
                    end
                end
            | 3%nat =>
                match afterPadding rest (si + 1) with
                | Some e => inl e
                | None => inr (out ++ quantumBytes d 3)%list
                end
            | _ => inl (CorruptInputError si)
            end
      end
  end.

(** [StdEncoding.DecodeString]. When Go returns an error it also returns
    the bytes decoded before it; every caller in the client drops them. *)
Definition DecodeString (s : string) : GoError + bytes :=
  decode s 0 (len s) [] [].

End base64.

Example base64_encode_foobar :
  base64.EncodeToString (bytes_of_string "foobar") = "Zm9vYmFy"
  /\ base64.EncodeToString (bytes_of_string "fooba") = "Zm9vYmE="
  /\ base64.EncodeToString (bytes_of_string "foob") = "Zm9vYg=="
  /\ base64.EncodeToString (bytes_of_string "") = "".
Proof. repeat split; reflexivity. Qed.

Example base64_decode_foobar :
  base64.DecodeString "Zm9vYmFy" = inr (bytes_of_string "foobar")
  /\ base64.DecodeString "Zm9vYmE=" = inr (bytes_of_string "fooba")
  /\ base64.DecodeString "Zm9vYg==" = inr (bytes_of_string "foob")
  /\ base64.DecodeString "Zm9vYg=" = inl (CorruptInputError 7)
  /\ base64.DecodeString "Zm9vY" = inl (CorruptInputError 4)
  /\ base64.DecodeString "Zm9v,mFy" = inl (CorruptInputError 4).
Proof. repeat split; reflexivity. Qed.

(** ** [encoding/json]: values *)

(** A JSON text as a tree. A number is kept as its literal. *)
Inductive json : Type :=
| JNull
| JBool (b : bool)
| JNumber (lit : string)
| JString (s : string)
| JArray (elems : list json)
| JObject (members : list (string * json)).

(** A value of type [interface{}] handed to the encoder, represented by
    what [encoding/json] makes of its dynamic value: a JSON value, or an
    error for a value it does not support (a channel, a function). *)
Inductive GoAny : Type :=
| AnyJSON (j : json)
| AnyUnsupported (e : GoError).

Abbreviation float32 := Z (only parsing).

(** The Go values that occur as fields of the request structs. A struct
    is the list of its exported fields in declaration order, each with
    the key and the [omitempty] flag of its [json] tag. *)
Inductive GoValue : Type :=
| VString (s : string)
| VInt (n : Z)
| VFloat32 (bits : float32)
| VBool (b : bool)
| VStrings (l : list string)
| VAnys (l : list GoAny)
| VPtr (p : option GoValue)
| VStruct (fields : list (string * bool * GoValue)).

(** ** The request structs *)

(** [OptionsResponse]: the server options, also the type of [override_settings]. *)
Module OptionsResponse.

Record t : Type := mk {
  SdModelCheckpoint                  : string;
  SamplesSave                        : bool;
  SamplesFormat                      : string;
  SamplesFilenamePattern             : string;
  SaveImagesAddNumber                : bool;
  GridSave                           : bool;
  GridFormat                         : string;
  GridExtendedFilename               : bool;
  GridOnlyIfMultiple                 : bool;
  GridPreventEmptySpots              : bool;
  NRows                              : float32;
  EnablePnginfo                      : bool;
  SaveTxt                            : bool;
  SaveImagesBeforeFaceRestoration    : bool;
  SaveImagesBeforeHighresFix         : bool;
  SaveImagesBeforeColorCorrection    : bool;
  JpegQuality                        : float32;
  ExportFor4Chan                     : bool;
  ImgDownscaleThreshold              : float32;
  TargetSideLength                   : float32;
  UseOriginalNameBatch               : bool;
  UseUpscalerNameAsSuffix            : bool;
  SaveSelectedOnly                   : bool;
  DoNotAddWatermark                  : bool;
  TempDir                            : string;
  CleanTempDirAtStart                : bool;
  OutdirSamples                      : string;
  OutdirTxt2ImgSamples               : string;
  OutdirImg2ImgSamples               : string;
  OutdirExtrasSamples                : string;
  OutdirGrids                        : string;
  OutdirTxt2ImgGrids                 : string;
  OutdirImg2ImgGrids                 : string;
  OutdirSave                         : string;
  SaveToDirs                         : bool;
  GridSaveToDirs                     : bool;
  UseSaveToDirsForUI                 : bool;
  DirectoriesFilenamePattern         : string;
  DirectoriesMaxPromptWords          : float32;
  ESRGANTile                         : float32;
  ESRGANTileOverlap                  : float32;
  RealesrganEnabledModels            : list string;
  UpscalerForImg2Img                 : string;
  LdsrSteps                          : float32;
  LdsrCached                         : bool;
  SWINTile                           : float32;
  SWINTileOverlap                    : float32;
  FaceRestorationModel               : string;
  CodeFormerWeight                   : float32;
  FaceRestorationUnload              : bool;
  ShowWarnings                       : bool;
  MemmonPollRate                     : float32;
  SamplesLogStdout                   : bool;
  MultipleTqdm                       : bool;
  PrintHypernetExtra                 : bool;
  UnloadModelsWhenTraining           : bool;
  PinMemory                          : bool;
  SaveOptimizerState                 : bool;
  SaveTrainingSettingsToTxt          : bool;
  DatasetFilenameWordRegex           : string;
  DatasetFilenameJoinString          : string;
  TrainingImageRepeatsPerEpoch       : float32;
  TrainingWriteCsvEvery              : float32;
  TrainingXattentionOptimizations    : bool;
  TrainingEnableTensorboard          : bool;
  TrainingTensorboardSaveImages      : bool;
  TrainingTensorboardFlushEvery      : float32;
  SdCheckpointCache                  : float32;
  SdVaeCheckpointCache               : float32;
  SdVae                              : string;
  SdVaeAsDefault                     : bool;
  InpaintingMaskWeight               : float32;
  InitialNoiseMultiplier             : float32;
  Img2ImgColorCorrection             : bool;
  Img2ImgFixSteps                    : bool;
  Img2ImgBackgroundColor             : string;
  EnableQuantization                 : bool;
  EnableEmphasis                     : bool;
  EnableBatchSeeds                   : bool;
  CommaPaddingBacktrack              : float32;
  CLIPStopAtLastLayers               : float32;
  UpcastAttn                         : bool;
  UseOldEmphasisImplementation       : bool;
  UseOldKarrasSchedulerSigmas        : bool;
  NoDpmppSdeBatchDeterminism         : bool;
  UseOldHiresFixWidthHeight          : bool;
  InterrogateKeepModelsInMemory      : bool;
  InterrogateReturnRanks             : bool;
  InterrogateClipNumBeams            : float32;
  InterrogateClipMinLength           : float32;
  InterrogateClipMaxLength           : float32;
  InterrogateClipDictLimit           : float32;
  InterrogateClipSkipCategories      : list GoAny;
  InterrogateDeepbooruScoreThreshold : float32;
  DeepbooruSortAlpha                 : bool;
  DeepbooruUseSpaces                 : bool;
  DeepbooruEscape                    : bool;
  DeepbooruFilterTags                : string;
  ExtraNetworksDefaultView           : string;
  ExtraNetworksDefaultMultiplier     : float32;
  SdHypernetwork                     : string;
  SdLora                             : string;
  LoraApplyToOutputs                 : bool;
  ReturnGrid                         : bool;
  DoNotShowImages                    : bool;
  AddModelHashToInfo                 : bool;
  AddModelNameToInfo                 : bool;
  DisableWeightsAutoSwap             : bool;
  SendSeed                           : bool;
  SendSize                           : bool;
  Font                               : string;
  JsModalLightbox                    : bool;
  JsModalLightboxInitiallyZoomed     : bool;
  ShowProgressInTitle                : bool;
  SamplersInDropdown                 : bool;
  DimensionsAndBatchTogether         : bool;
  KeyeditPrecisionAttention          : float32;
  KeyeditPrecisionExtra              : float32;
  Quicksettings                      : string;
  UIReorder                          : string;
  UIExtraNetworksTabReorder          : string;
  Localization                       : string;
  ShowProgressbar                    : bool;
  LivePreviewsEnable                 : bool;
  ShowProgressGrid                   : bool;
  ShowProgressEveryNSteps            : float32;
  ShowProgressType                   : string;
  LivePreviewContent                 : string;
  LivePreviewRefreshPeriod           : float32;
  HideSamplers                       : list GoAny;
  EtaDdim                            : float32;
  EtaAncestral                       : float32;
  DdimDiscretize                     : string;
  SChurn                             : float32;
  STmin                              : float32;
  SNoise                             : float32;
  EtaNoiseSeedDelta                  : float32;
  AlwaysDiscardNextToLastSigma       : bool;
  PostprocessingEnableInMainUI       : list GoAny;
  PostprocessingOperationOrder       : list GoAny;
  UpscalingMaxImagesInCache          : float32;
  DisabledExtensions                 : list GoAny;
  SdCheckpointHash                   : string
}.

(** The zero value: every field at the zero value of its type. *)
Definition zero : t := {|
  SdModelCheckpoint                  := "";
  SamplesSave                        := false;
  SamplesFormat                      := "";
  SamplesFilenamePattern             := "";
  SaveImagesAddNumber                := false;
  GridSave                           := false;
  GridFormat                         := "";
  GridExtendedFilename               := false;
  GridOnlyIfMultiple                 := false;
  GridPreventEmptySpots              := false;
  NRows                              := 0;
  EnablePnginfo                      := false;
  SaveTxt                            := false;
  SaveImagesBeforeFaceRestoration    := false;
  SaveImagesBeforeHighresFix         := false;
  SaveImagesBeforeColorCorrection    := false;
  JpegQuality                        := 0;
  ExportFor4Chan                     := false;
  ImgDownscaleThreshold              := 0;
  TargetSideLength                   := 0;
  UseOriginalNameBatch               := false;
  UseUpscalerNameAsSuffix            := false;
  SaveSelectedOnly                   := false;
  DoNotAddWatermark                  := false;
  TempDir                            := "";
  CleanTempDirAtStart                := false;
  OutdirSamples                      := "";
  OutdirTxt2ImgSamples               := "";
  OutdirImg2ImgSamples               := "";
  OutdirExtrasSamples                := "";
  OutdirGrids                        := "";
  OutdirTxt2ImgGrids                 := "";
  OutdirImg2ImgGrids                 := "";
  OutdirSave                         := "";
  SaveToDirs                         := false;
  GridSaveToDirs                     := false;
  UseSaveToDirsForUI                 := false;
  DirectoriesFilenamePattern         := "";
  DirectoriesMaxPromptWords          := 0;
  ESRGANTile                         := 0;
  ESRGANTileOverlap                  := 0;
  RealesrganEnabledModels            := [];
  UpscalerForImg2Img                 := "";
  LdsrSteps                          := 0;
  LdsrCached                         := false;
  SWINTile                           := 0;
  SWINTileOverlap                    := 0;
  FaceRestorationModel               := "";
  CodeFormerWeight                   := 0;
  FaceRestorationUnload              := false;
  ShowWarnings                       := false;
  MemmonPollRate                     := 0;
  SamplesLogStdout                   := false;
  MultipleTqdm                       := false;
  PrintHypernetExtra                 := false;
  UnloadModelsWhenTraining           := false;
  PinMemory                          := false;
  SaveOptimizerState                 := false;
  SaveTrainingSettingsToTxt          := false;
  DatasetFilenameWordRegex           := "";
  DatasetFilenameJoinString          := "";
  TrainingImageRepeatsPerEpoch       := 0;
  TrainingWriteCsvEvery              := 0;
  TrainingXattentionOptimizations    := false;
  TrainingEnableTensorboard          := false;
  TrainingTensorboardSaveImages      := false;
  TrainingTensorboardFlushEvery      := 0;
  SdCheckpointCache                  := 0;
  SdVaeCheckpointCache               := 0;
  SdVae                              := "";
  SdVaeAsDefault                     := false;
  InpaintingMaskWeight               := 0;
  InitialNoiseMultiplier             := 0;
  Img2ImgColorCorrection             := false;
  Img2ImgFixSteps                    := false;
  Img2ImgBackgroundColor             := "";
  EnableQuantization                 := false;
  EnableEmphasis                     := false;
  EnableBatchSeeds                   := false;
  CommaPaddingBacktrack              := 0;
  CLIPStopAtLastLayers               := 0;
  UpcastAttn                         := false;
  UseOldEmphasisImplementation       := false;
  UseOldKarrasSchedulerSigmas        := false;
  NoDpmppSdeBatchDeterminism         := false;
  UseOldHiresFixWidthHeight          := false;
  InterrogateKeepModelsInMemory      := false;
  InterrogateReturnRanks             := false;
  InterrogateClipNumBeams            := 0;
  InterrogateClipMinLength           := 0;
  InterrogateClipMaxLength           := 0;
  InterrogateClipDictLimit           := 0;
  InterrogateClipSkipCategories      := [];
  InterrogateDeepbooruScoreThreshold := 0;
  DeepbooruSortAlpha                 := false;
  DeepbooruUseSpaces                 := false;
  DeepbooruEscape                    := false;
  DeepbooruFilterTags                := "";
  ExtraNetworksDefaultView           := "";
  ExtraNetworksDefaultMultiplier     := 0;
  SdHypernetwork                     := "";
  SdLora                             := "";
  LoraApplyToOutputs                 := false;
  ReturnGrid                         := false;
  DoNotShowImages                    := false;
  AddModelHashToInfo                 := false;
  AddModelNameToInfo                 := false;
  DisableWeightsAutoSwap             := false;
  SendSeed                           := false;
  SendSize                           := false;
  Font                               := "";
  JsModalLightbox                    := false;
  JsModalLightboxInitiallyZoomed     := false;
  ShowProgressInTitle                := false;
  SamplersInDropdown                 := false;
  DimensionsAndBatchTogether         := false;
  KeyeditPrecisionAttention          := 0;
  KeyeditPrecisionExtra              := 0;
  Quicksettings                      := "";
  UIReorder                          := "";
  UIExtraNetworksTabReorder          := "";
  Localization                       := "";
  ShowProgressbar                    := false;
  LivePreviewsEnable                 := false;
  ShowProgressGrid                   := false;
  ShowProgressEveryNSteps            := 0;
  ShowProgressType                   := "";
  LivePreviewContent                 := "";
  LivePreviewRefreshPeriod           := 0;
  HideSamplers                       := [];
  EtaDdim                            := 0;
  EtaAncestral                       := 0;
  DdimDiscretize                     := "";
  SChurn                             := 0;
  STmin                              := 0;
  SNoise                             := 0;
  EtaNoiseSeedDelta                  := 0;
  AlwaysDiscardNextToLastSigma       := false;
  PostprocessingEnableInMainUI       := [];
  PostprocessingOperationOrder       := [];
  UpscalingMaxImagesInCache          := 0;
  DisabledExtensions                 := [];
  SdCheckpointHash                   := ""
|}.

(** The fields in declaration order, each with the key and the
    [omitempty] flag of its [json] tag. *)
Definition fields (o : t) : list (string * bool * GoValue) := [
  ("sd_model_checkpoint", true, VString (SdModelCheckpoint o));
  ("samples_save", true, VBool (SamplesSave o));
  ("samples_format", true, VString (SamplesFormat o));
  ("samples_filename_pattern", true, VString (SamplesFilenamePattern o));
  ("save_images_add_number", true, VBool (SaveImagesAddNumber o));
  ("grid_save", true, VBool (GridSave o));
  ("grid_format", true, VString (GridFormat o));
  ("grid_extended_filename", true, VBool (GridExtendedFilename o));
  ("grid_only_if_multiple", true, VBool (GridOnlyIfMultiple o));
  ("grid_prevent_empty_spots", true, VBool (GridPreventEmptySpots o));
  ("n_rows", true, VFloat32 (NRows o));
  ("enable_pnginfo", true, VBool (EnablePnginfo o));
  ("save_txt", true, VBool (SaveTxt o));
  ("save_images_before_face_restoration", true, VBool (SaveImagesBeforeFaceRestoration o));
  ("save_images_before_highres_fix", true, VBool (SaveImagesBeforeHighresFix o));
  ("save_images_before_color_correction", true, VBool (SaveImagesBeforeColorCorrection o));
  ("jpeg_quality", true, VFloat32 (JpegQuality o));
  ("export_for_4chan", true, VBool (ExportFor4Chan o));
  ("img_downscale_threshold", true, VFloat32 (ImgDownscaleThreshold o));
  ("target_side_length", true, VFloat32 (TargetSideLength o));
  ("use_original_name_batch", true, VBool (UseOriginalNameBatch o));
  ("use_upscaler_name_as_suffix", true, VBool (UseUpscalerNameAsSuffix o));
  ("save_selected_only", true, VBool (SaveSelectedOnly o));
  ("do_not_add_watermark", true, VBool (DoNotAddWatermark o));
  ("temp_dir", true, VString (TempDir o));
  ("clean_temp_dir_at_start", true, VBool (CleanTempDirAtStart o));
  ("outdir_samples", true, VString (OutdirSamples o));
  ("outdir_txt2img_samples", true, VString (OutdirTxt2ImgSamples o));
  ("outdir_img2img_samples", true, VString (OutdirImg2ImgSamples o));
  ("outdir_extras_samples", true, VString (OutdirExtrasSamples o));
  ("outdir_grids", true, VString (OutdirGrids o));
  ("outdir_txt2img_grids", true, VString (OutdirTxt2ImgGrids o));
  ("outdir_img2img_grids", true, VString (OutdirImg2ImgGrids o));
  ("outdir_save", true, VString (OutdirSave o));
  ("save_to_dirs", true, VBool (SaveToDirs o));
  ("grid_save_to_dirs", true, VBool (GridSaveToDirs o));
  ("use_save_to_dirs_for_ui", true, VBool (UseSaveToDirsForUI o));
  ("directories_filename_pattern", true, VString (DirectoriesFilenamePattern o));
  ("directories_max_prompt_words", true, VFloat32 (DirectoriesMaxPromptWords o));
  ("ESRGAN_tile", true, VFloat32 (ESRGANTile o));
  ("ESRGAN_tile_overlap", true, VFloat32 (ESRGANTileOverlap o));
  ("realesrgan_enabled_models", true, VStrings (RealesrganEnabledModels o));
  ("upscaler_for_img2img", true, VString (UpscalerForImg2Img o));
  ("ldsr_steps", true, VFloat32 (LdsrSteps o));
  ("ldsr_cached", true, VBool (LdsrCached o));
  ("SWIN_tile", true, VFloat32 (SWINTile o));
  ("SWIN_tile_overlap", true, VFloat32 (SWINTileOverlap o));
  ("face_restoration_model", true, VString (FaceRestorationModel o));
  ("code_former_weight", true, VFloat32 (CodeFormerWeight o));
  ("face_restoration_unload", true, VBool (FaceRestorationUnload o));
  ("show_warnings", true, VBool (ShowWarnings o));
  ("memmon_poll_rate", true, VFloat32 (MemmonPollRate o));
  ("samples_log_stdout", true, VBool (SamplesLogStdout o));
  ("multiple_tqdm", true, VBool (MultipleTqdm o));
  ("print_hypernet_extra", true, VBool (PrintHypernetExtra o));
  ("unload_models_when_training", true, VBool (UnloadModelsWhenTraining o));
  ("pin_memory", true, VBool (PinMemory o));
  ("save_optimizer_state", true, VBool (SaveOptimizerState o));
  ("save_training_settings_to_txt", true, VBool (SaveTrainingSettingsToTxt o));
  ("dataset_filename_word_regex", true, VString (DatasetFilenameWordRegex o));
  ("dataset_filename_join_string", true, VString (DatasetFilenameJoinString o));
  ("training_image_repeats_per_epoch", true, VFloat32 (TrainingImageRepeatsPerEpoch o));
  ("training_write_csv_every", true, VFloat32 (TrainingWriteCsvEvery o));
  ("training_xattention_optimizations", true, VBool (TrainingXattentionOptimizations o));
  ("training_enable_tensorboard", true, VBool (TrainingEnableTensorboard o));
  ("training_tensorboard_save_images", true, VBool (TrainingTensorboardSaveImages o));
  ("training_tensorboard_flush_every", true, VFloat32 (TrainingTensorboardFlushEvery o));
  ("sd_checkpoint_cache", true, VFloat32 (SdCheckpointCache o));
  ("sd_vae_checkpoint_cache", true, VFloat32 (SdVaeCheckpointCache o));
  ("sd_vae", true, VString (SdVae o));
  ("sd_vae_as_default", true, VBool (SdVaeAsDefault o));
  ("inpainting_mask_weight", true, VFloat32 (InpaintingMaskWeight o));
  ("initial_noise_multiplier", true, VFloat32 (InitialNoiseMultiplier o));
  ("img2img_color_correction", true, VBool (Img2ImgColorCorrection o));
  ("img2img_fix_steps", true, VBool (Img2ImgFixSteps o));
  ("img2img_background_color", true, VString (Img2ImgBackgroundColor o));
  ("enable_quantization", true, VBool (EnableQuantization o));
  ("enable_emphasis", true, VBool (EnableEmphasis o));
  ("enable_batch_seeds", true, VBool (EnableBatchSeeds o));
  ("comma_padding_backtrack", true, VFloat32 (CommaPaddingBacktrack o));
  ("CLIP_stop_at_last_layers", true, VFloat32 (CLIPStopAtLastLayers o));
  ("upcast_attn", true, VBool (UpcastAttn o));
  ("use_old_emphasis_implementation", true, VBool (UseOldEmphasisImplementation o));
  ("use_old_karras_scheduler_sigmas", true, VBool (UseOldKarrasSchedulerSigmas o));
  ("no_dpmpp_sde_batch_determinism", true, VBool (NoDpmppSdeBatchDeterminism o));
  ("use_old_hires_fix_width_height", true, VBool (UseOldHiresFixWidthHeight o));
  ("interrogate_keep_models_in_memory", true, VBool (InterrogateKeepModelsInMemory o));
  ("interrogate_return_ranks", true, VBool (InterrogateReturnRanks o));
  ("interrogate_clip_num_beams", true, VFloat32 (InterrogateClipNumBeams o));
  ("interrogate_clip_min_length", true, VFloat32 (InterrogateClipMinLength o));
  ("interrogate_clip_max_length", true, VFloat32 (InterrogateClipMaxLength o));
  ("interrogate_clip_dict_limit", true, VFloat32 (InterrogateClipDictLimit o));
  ("interrogate_clip_skip_categories", true, VAnys (InterrogateClipSkipCategories o));
  ("interrogate_deepbooru_score_threshold", true, VFloat32 (InterrogateDeepbooruScoreThreshold o));
  ("deepbooru_sort_alpha", true, VBool (DeepbooruSortAlpha o));
  ("deepbooru_use_spaces", true, VBool (DeepbooruUseSpaces o));
  ("deepbooru_escape", true, VBool (DeepbooruEscape o));
  ("deepbooru_filter_tags", true, VString (DeepbooruFilterTags o));
  ("extra_networks_default_view", true, VString (ExtraNetworksDefaultView o));
  ("extra_networks_default_multiplier", true, VFloat32 (ExtraNetworksDefaultMultiplier o));
  ("sd_hypernetwork", true, VString (SdHypernetwork o));
  ("sd_lora", true, VString (SdLora o));
  ("lora_apply_to_outputs", true, VBool (LoraApplyToOutputs o));
  ("return_grid", true, VBool (ReturnGrid o));
  ("do_not_show_images", true, VBool (DoNotShowImages o));
  ("add_model_hash_to_info", true, VBool (AddModelHashToInfo o));
  ("add_model_name_to_info", true, VBool (AddModelNameToInfo o));
  ("disable_weights_auto_swap", true, VBool (DisableWeightsAutoSwap o));
  ("send_seed", true, VBool (SendSeed o));
  ("send_size", true, VBool (SendSize o));
  ("font", true, VString (Font o));
  ("js_modal_lightbox", true, VBool (JsModalLightbox o));
  ("js_modal_lightbox_initially_zoomed", true, VBool (JsModalLightboxInitiallyZoomed o));
  ("show_progress_in_title", true, VBool (ShowProgressInTitle o));
  ("samplers_in_dropdown", true, VBool (SamplersInDropdown o));
  ("dimensions_and_batch_together", true, VBool (DimensionsAndBatchTogether o));
  ("keyedit_precision_attention", true, VFloat32 (KeyeditPrecisionAttention o));
  ("keyedit_precision_extra", true, VFloat32 (KeyeditPrecisionExtra o));
  ("quicksettings", true, VString (Quicksettings o));
  ("ui_reorder", true, VString (UIReorder o));
  ("ui_extra_networks_tab_reorder", true, VString (UIExtraNetworksTabReorder o));
  ("localization", true, VString (Localization o));
  ("show_progressbar", true, VBool (ShowProgressbar o));
  ("live_previews_enable", true, VBool (LivePreviewsEnable o));
  ("show_progress_grid", true, VBool (ShowProgressGrid o));
  ("show_progress_every_n_steps", true, VFloat32 (ShowProgressEveryNSteps o));
  ("show_progress_type", true, VString (ShowProgressType o));
  ("live_preview_content", true, VString (LivePreviewContent o));
  ("live_preview_refresh_period", true, VFloat32 (LivePreviewRefreshPeriod o));
  ("hide_samplers", true, VAnys (HideSamplers o));
  ("eta_ddim", true, VFloat32 (EtaDdim o));
  ("eta_ancestral", true, VFloat32 (EtaAncestral o));
  ("ddim_discretize", true, VString (DdimDiscretize o));
  ("s_churn", true, VFloat32 (SChurn o));
  ("s_tmin", true, VFloat32 (STmin o));
  ("s_noise", true, VFloat32 (SNoise o));
  ("eta_noise_seed_delta", true, VFloat32 (EtaNoiseSeedDelta o));
  ("always_discard_next_to_last_sigma", true, VBool (AlwaysDiscardNextToLastSigma o));
  ("postprocessing_enable_in_main_ui", true, VAnys (PostprocessingEnableInMainUI o));
  ("postprocessing_operation_order", true, VAnys (PostprocessingOperationOrder o));
  ("upscaling_max_images_in_cache", true, VFloat32 (UpscalingMaxImagesInCache o));
  ("disabled_extensions", true, VAnys (DisabledExtensions o));
  ("sd_checkpoint_hash", true, VString (SdCheckpointHash o))
].

End OptionsResponse.

(** [Txt2ImageOption] *)
Module Txt2ImageOption.

Record t : Type := mk {
  Prompt                            : string;
  NegativePrompt                    : string;
  Steps                             : Z;
  CfgScale                          : float32;
  Width                             : Z;
  Height                            : Z;
  SamplerIndex                      : string;
  OverrideSettings                  : option OptionsResponse.t;
  EnableHR                          : bool;
  DenoisingStrength                 : float32;
  FirstPhaseWidth                   : Z;
  FirstPhaseHeight                  : Z;
  HRScale                           : float32;
  HrUpscaler                        : string;
  HrSecondPassSteps                 : Z;
  HrResizeX                         : Z;
  HrResizeY                         : Z;
  Styles                            : list string;
  Seed                              : Z;
  Subseed                           : Z;
  SubseedStrength                   : float32;
  SeedResizeFromH                   : Z;
  SeedResizeFromW                   : Z;
  SamplerName                       : string;
  BatchSize                         : Z;
  NIter                             : Z;
  RestoreFaces                      : bool;
  Tiling                            : bool;
  Eta                               : float32;
  SChurn                            : float32;
  STmax                             : float32;
  STmin                             : float32;
  SNoise                            : float32;
  OverrideSettingsRestoreAfterwards : bool;
  ScriptArgs                        : list GoAny;
  ScriptName                        : string
}.

(** The zero value: every field at the zero value of its type. *)
Definition zero : t := {|
  Prompt                            := "";
  NegativePrompt                    := "";
  Steps                             := 0;
  CfgScale                          := 0;
  Width                             := 0;
  Height                            := 0;
  SamplerIndex                      := "";
  OverrideSettings                  := None;
  EnableHR                          := false;
  DenoisingStrength                 := 0;
  FirstPhaseWidth                   := 0;
  FirstPhaseHeight                  := 0;
  HRScale                           := 0;
  HrUpscaler                        := "";
  HrSecondPassSteps                 := 0;
  HrResizeX                         := 0;
  HrResizeY                         := 0;
  Styles                            := [];
  Seed                              := 0;
  Subseed                           := 0;
  SubseedStrength                   := 0;
  SeedResizeFromH                   := 0;
  SeedResizeFromW                   := 0;
  SamplerName                       := "";
  BatchSize                         := 0;
  NIter                             := 0;
  RestoreFaces                      := false;
  Tiling                            := false;
  Eta                               := 0;
  SChurn                            := 0;
  STmax                             := 0;
  STmin                             := 0;
  SNoise                            := 0;
  OverrideSettingsRestoreAfterwards := false;
  ScriptArgs                        := [];
  ScriptName                        := ""
|}.

(** The fields in declaration order, each with the key and the
    [omitempty] flag of its [json] tag. *)
Definition fields (o : t) : list (string * bool * GoValue) := [
  ("prompt", true, VString (Prompt o));
  ("negative_prompt", true, VString (NegativePrompt o));
  ("steps", true, VInt (Steps o));
  ("cfg_scale", true, VFloat32 (CfgScale o));
  ("width", true, VInt (Width o));
  ("height", true, VInt (Height o));
  ("sampler_index", true, VString (SamplerIndex o));
  ("override_settings", true, VPtr (option_map (fun p => VStruct (OptionsResponse.fields p)) (OverrideSettings o)));
  ("enable_hr", true, VBool (EnableHR o));
  ("denoising_strenght", true, VFloat32 (DenoisingStrength o));
  ("firstphase_width", true, VInt (FirstPhaseWidth o));
  ("firstphase_height", true, VInt (FirstPhaseHeight o));
  ("hr_scale", true, VFloat32 (HRScale o));
  ("hr_upscaler", true, VString (HrUpscaler o));
  ("hr_second_pass_steps", true, VInt (HrSecondPassSteps o));
  ("hr_resize_x", true, VInt (HrResizeX o));
  ("hr_resize_y", true, VInt (HrResizeY o));
  ("styles", true, VStrings (Styles o));
  ("seed", true, VInt (Seed o));
  ("subseed", true, VInt (Subseed o));
  ("subseed_strength", true, VFloat32 (SubseedStrength o));
  ("seed_resize_from_h", true, VInt (SeedResizeFromH o));
  ("seed_resize_from_w", true, VInt (SeedResizeFromW o));
  ("sampler_name", true, VString (SamplerName o));
  ("batch_size", true, VInt (BatchSize o));
  ("n_iter", true, VInt (NIter o));
  ("restore_faces", true, VBool (RestoreFaces o));
  ("tiling", true, VBool (Tiling o));
  ("eta", true, VFloat32 (Eta o));
  ("s_churn", true, VFloat32 (SChurn o));
  ("s_tmax", true, VFloat32 (STmax o));
  ("s_tmin", true, VFloat32 (STmin o));
  ("s_noise", true, VFloat32 (SNoise o));
  ("override_settings_restore_afterwards", true, VBool (OverrideSettingsRestoreAfterwards o));
  ("script_args", true, VAnys (ScriptArgs o));
  ("script_name", true, VString (ScriptName o))
].

End Txt2ImageOption.

(** [Img2ImgOption] *)
Module Img2ImgOption.

Record t : Type := mk {
  InitImages                        : list string;
  ResizeMode                        : Z;
  DenoisingStrength                 : float32;
  ImageCfgScale                     : float32;
  Mask                              : string;
  MaskBlur                          : Z;
  InpaintingFill                    : Z;
  InpaintFullRes                    : bool;
  InpaintFullResPadding             : Z;
  InpaintingMaskInvert              : Z;
  InitialNoiseMultiplier            : Z;
  Prompt                            : string;
  Styles                            : list string;
  Seed                              : Z;
  Subseed                           : Z;
  SubseedStrength                   : float32;
  SeedResizeFromH                   : Z;
  SeedResizeFromW                   : Z;
  SamplerName                       : string;
  BatchSize                         : Z;
  NIter                             : Z;
  Steps                             : Z;
  CfgScale                          : float32;
  Width                             : Z;
  Height                            : Z;
  RestoreFaces                      : bool;
  Tiling                            : bool;
  NegativePrompt                    : string;
  Eta                               : float32;
  SChurn                            : float32;
  STmax                             : float32;
  STmin                             : float32;
  SNoise                            : Z;
  OverrideSettings                  : option OptionsResponse.t;
  OverrideSettingsRestoreAfterwards : bool;
  ScriptArgs                        : list GoAny;
  SamplerIndex                      : string;
  IncludeInitImages                 : bool;
  ScriptName                        : string
}.

(** The zero value: every field at the zero value of its type. *)
Definition zero : t := {|
  InitImages                        := [];
  ResizeMode                        := 0;
  DenoisingStrength                 := 0;
  ImageCfgScale                     := 0;
  Mask                              := "";
  MaskBlur                          := 0;
  InpaintingFill                    := 0;
  InpaintFullRes                    := false;
  InpaintFullResPadding             := 0;
  InpaintingMaskInvert              := 0;
  InitialNoiseMultiplier            := 0;
  Prompt                            := "";
  Styles                            := [];
  Seed                              := 0;
  Subseed                           := 0;
  SubseedStrength                   := 0;
  SeedResizeFromH                   := 0;
  SeedResizeFromW                   := 0;
  SamplerName                       := "";
  BatchSize                         := 0;
  NIter                             := 0;
  Steps                             := 0;
  CfgScale                          := 0;
  Width                             := 0;
  Height                            := 0;
  RestoreFaces                      := false;
  Tiling                            := false;
  NegativePrompt                    := "";
  Eta                               := 0;
  SChurn                            := 0;
  STmax                             := 0;
  STmin                             := 0;
  SNoise                            := 0;
  OverrideSettings                  := None;
  OverrideSettingsRestoreAfterwards := false;
  ScriptArgs                        := [];
  SamplerIndex                      := "";
  IncludeInitImages                 := false;
  ScriptName                        := ""
|}.

(** The fields in declaration order, each with the key and the
    [omitempty] flag of its [json] tag. *)
Definition fields (o : t) : list (string * bool * GoValue) := [
  ("init_images", true, VStrings (InitImages o));
  ("resize_mode", true, VInt (ResizeMode o));
  ("denoising_strength", true, VFloat32 (DenoisingStrength o));
  ("image_cfg_scale", true, VFloat32 (ImageCfgScale o));
  ("mask", true, VString (Mask o));
  ("mask_blur", true, VInt (MaskBlur o));
  ("inpainting_fill", true, VInt (InpaintingFill o));
  ("inpaint_full_res", true, VBool (InpaintFullRes o));
  ("inpaint_full_res_padding", true, VInt (InpaintFullResPadding o));
  ("inpainting_mask_invert", true, VInt (InpaintingMaskInvert o));
  ("initial_noise_multiplier", true, VInt (InitialNoiseMultiplier o));
  ("prompt", true, VString (Prompt o));
  ("styles", true, VStrings (Styles o));
  ("seed", true, VInt (Seed o));
  ("subseed", true, VInt (Subseed o));
  ("subseed_strength", true, VFloat32 (SubseedStrength o));
  ("seed_resize_from_h", true, VInt (SeedResizeFromH o));
  ("seed_resize_from_w", true, VInt (SeedResizeFromW o));
  ("sampler_name", true, VString (SamplerName o));
  ("batch_size", true, VInt (BatchSize o));
  ("n_iter", true, VInt (NIter o));
  ("steps", true, VInt (Steps o));
  ("cfg_scale", true, VFloat32 (CfgScale o));
  ("width", true, VInt (Width o));
  ("height", true, VInt (Height o));
  ("restore_faces", true, VBool (RestoreFaces o));
  ("tiling", true, VBool (Tiling o));
  ("negative_prompt", true, VString (NegativePrompt o));
  ("eta", true, VFloat32 (Eta o));
  ("s_churn", true, VFloat32 (SChurn o));
  ("s_tmax", true, VFloat32 (STmax o));
  ("s_tmin", true, VFloat32 (STmin o));
  ("s_noise", true, VInt (SNoise o));
  ("override_settings", true, VPtr (option_map (fun p => VStruct (OptionsResponse.fields p)) (OverrideSettings o)));
  ("override_settings_restore_afterwards", true, VBool (OverrideSettingsRestoreAfterwards o));
  ("script_args", true, VAnys (ScriptArgs o));
  ("sampler_index", true, VString (SamplerIndex o));
  ("include_init_images", true, VBool (IncludeInitImages o));
  ("script_name", true, VString (ScriptName o))
].

End Img2ImgOption.

(** [ExtraSingleImgOption] *)
Module ExtraSingleImgOption.

Record t : Type := mk {
  ResizeMode                : Z;
  ShowExtrasResults         : bool;
  GfpganVisibility          : Z;
  CodeformerVisibility      : Z;
  CodeformerWeight          : Z;
  UpscalingResize           : Z;
  UpscalingResizeW          : Z;
  UpscalingResizeH          : Z;
  UpscalingCrop             : bool;
  Upscaler1                 : string;
  Upscaler2                 : string;
  ExtrasUpscaler2Visibility : Z;
  UpscaleFirst              : bool;
  Image                     : string
}.

(** The zero value: every field at the zero value of its type. *)
Definition zero : t := {|
  ResizeMode                := 0;
  ShowExtrasResults         := false;
  GfpganVisibility          := 0;
  CodeformerVisibility      := 0;
  CodeformerWeight          := 0;
  UpscalingResize           := 0;
  UpscalingResizeW          := 0;
  UpscalingResizeH          := 0;
  UpscalingCrop             := false;
  Upscaler1                 := "";
  Upscaler2                 := "";
  ExtrasUpscaler2Visibility := 0;
  UpscaleFirst              := false;
  Image                     := ""
|}.

(** The fields in declaration order, each with the key and the
    [omitempty] flag of its [json] tag. *)
Definition fields (o : t) : list (string * bool * GoValue) := [
  ("resize_mode", true, VInt (ResizeMode o));
  ("show_extras_results", true, VBool (ShowExtrasResults o));
  ("gfpgan_visibility", true, VInt (GfpganVisibility o));
  ("codeformer_visibility", true, VInt (CodeformerVisibility o));
  ("codeformer_weight", true, VInt (CodeformerWeight o));
  ("upscaling_resize", true, VInt (UpscalingResize o));
  ("upscaling_resize_w", true, VInt (UpscalingResizeW o));
  ("upscaling_resize_h", true, VInt (UpscalingResizeH o));
  ("upscaling_crop", true, VBool (UpscalingCrop o));
  ("upscaler_1", true, VString (Upscaler1 o));
  ("upscaler_2", true, VString (Upscaler2 o));
  ("extras_upscaler_2_visibility", true, VInt (ExtrasUpscaler2Visibility o));
  ("upscale_first", true, VBool (UpscaleFirst o));
  ("image", true, VString (Image o))
].

End ExtraSingleImgOption.

(** ** The response structs

    The fields tagged [json:"-"] are never written by the JSON decoder;
    the client fills them after decoding. [Img] is [image.Image]. *)

Module Txt2ImageResponse.

Record t (Img : Type) : Type := mk {
  Images       : list string;
  Parameters   : option Txt2ImageOption.t;
  Info         : string;
  ParsedImages : list Img;
  RawImages    : list bytes
}.
Arguments mk {Img}.
Arguments Images {Img}.
Arguments Parameters {Img}.
Arguments Info {Img}.
Arguments ParsedImages {Img}.
Arguments RawImages {Img}.

(** [new(Txt2ImageResponse)]. *)
Definition zero {Img : Type} : t Img :=
  mk [] None "" [] [].

End Txt2ImageResponse.

Module Img2ImgResponse.

Record t (Img : Type) : Type := mk {
  Images       : list string;
  Parameters   : option Txt2ImageOption.t;
  Info         : string;
  ParsedImages : list Img;
  RawImages    : list bytes
}.
Arguments mk {Img}.
Arguments Images {Img}.
Arguments Parameters {Img}.
Arguments Info {Img}.
Arguments ParsedImages {Img}.
Arguments RawImages {Img}.

Definition zero {Img : Type} : t Img :=
  mk [] None "" [] [].

End Img2ImgResponse.

Module ExtraSingleImgResponse.

Record t (Img : Type) : Type := mk {
  HTMLInfo    : string;
  Image       : string;
  ParsedImage : option Img;
  RawImage    : bytes
}.
Arguments mk {Img}.
Arguments HTMLInfo {Img}.
Arguments Image {Img}.
Arguments ParsedImage {Img}.
Arguments RawImage {Img}.

Definition zero {Img : Type} : t Img :=
  mk "" "" None [].

End ExtraSingleImgResponse.

Module ProgressResponse.

Record state : Type := mkState {
  Skipped       : bool;
  Interrupted   : bool;
  Job           : string;
  JobCount      : Z;
  JobTimestamp  : string;
  JobNo         : Z;
  SamplingStep  : Z;
  SamplingSteps : Z
}.

Record t : Type := mk {
  Progress     : float32;
  ETARelative  : float32;
  State        : state;
  CurrentImage : string;
  TextInfo     : string
}.

Definition zero : t :=
  mk 0 0 (mkState false false "" 0 "" 0 0 0) "" "".

End ProgressResponse.

Module ModelsResponse.

Record t : Type := mk {
  Title     : string;
  ModelName : string;
  Hash      : string;
  Sha256    : string;
  Filename  : string;
  Config    : option json
}.

End ModelsResponse.

Module MemoryResponse.

Record usage : Type := mkUsage { Free : Z; Used : Z; Total : Z }.
Record level : Type := mkLevel { Current : Z; Peak : Z }.
Record events : Type := mkEvents { Retries : Z; EventsPeak : Z }.

Record cuda : Type := mkCuda {
  System    : usage;
  Active    : level;
  Allocated : level;
  Reserved  : level;
  Inactive  : level;
  Events    : events
}.

Record t : Type := mk {
  RAM  : usage;
  Cuda : cuda
}.

Definition zero : t :=
  mk (mkUsage 0 0 0)
     (mkCuda (mkUsage 0 0 0) (mkLevel 0 0) (mkLevel 0 0) (mkLevel 0 0)
             (mkLevel 0 0) (mkEvents 0 0)).

End MemoryResponse.

(** ** [net/http] *)

Module http.

Definition MethodGet : string := "GET".
Definition MethodPost : string := "POST".
Definition StatusOK : Z := 200.

Module Request.

(** A request as built by [http.NewRequestWithContext]: [URL] is the
    string the request was built from, [Body] the bytes of the reader
    handed over ([None] for a nil reader). *)
Record t : Type := mk {
  Method : string;
  URL    : string;
  Header : gmap string (list string);
  Body   : option bytes
}.

(** [req.Header.Set(key, value)], for a key in canonical form. *)
Definition Header_Set (key value : string) (r : t) : t :=
  mk (Method r) (URL r) (<[key := [value]]> (Header r)) (Body r).

(** The value of the [Authorization] header that carries a
    username/password pair. *)
Definition basicAuth (username password : string) : string :=
  "Basic " ++
  base64.EncodeToString (bytes_of_string (username ++ ":" ++ password)).

(** [req.SetBasicAuth(username, password)]. *)
Definition SetBasicAuth (username password : string) (r : t) : t :=
  Header_Set "Authorization" (basicAuth username password) r.

End Request.

Module Response.

(** A response as returned by [Client.Do]: [Body] is what [io.ReadAll]
    makes of the body, the bytes read and the error that stopped the
    read, if any. *)
Record t : Type := mk {
  StatusCode : Z;
  Body       : bytes * option GoError
}.

End Response.

(** A non-nil [*http.Client], by what [Do] answers to a request. The
    caller's context is part of it: a cancelled context is an error of
    [Do]. *)
Definition Client : Type := Request.t -> GoError + Response.t.

End http.

(** ** The client *)

Record Client : Type := mkClient {
  cli      : option http.Client;
  baseURL  : string;
  username : string;
  password : string
}.

(** [NewClient]. The composite literal sets [cli] and [baseURL] only, so
    [username] and [password] keep their zero value. *)
Definition NewClient (baseURL username password : string)
    (httpCli : option http.Client) : Client * option GoError :=
  let baseURL := if len baseURL =? 0 then "http://127.0.0.1:7860" else baseURL in
  let cli := {| cli := httpCli; baseURL := baseURL;
                username := ""; password := "" |} in
  (cli, None).

Record Error : Type := mkError {
  Err      : option GoError;
  Msg      : string;
  Response : option http.Response.t
}.


Definition Error_Unwrap (e : Error) : option GoError := Err e.

(** [wrapError]; [msg] is [fmt.Sprintf(format, args...)], written out at
    each call. *)
Definition wrapError (err : option GoError) (resp : option http.Response.t)
    (msg : string) : Error :=
  {| Err := err; Msg := msg; Response := resp |}.

(** ** Effects: a trace of library calls, early errors and panics *)

Inductive Event : Type :=
| EvEncode                              (* json.NewEncoder(buf).Encode(body) *)
| EvNewRequest (method url : string)    (* http.NewRequestWithContext *)
| EvDo (req : http.Request.t)           (* c.cli.Do(req), with its answer *)
       (answer : GoError + http.Response.t)
| EvReadAll                             (* io.ReadAll(resp.Body) *)
| EvUnmarshal (data : bytes)            (* json.Unmarshal(data, result) *)
| EvClose.                              (* resp.Body.Close() *)

Inductive Result (A : Type) : Type :=
| Ok (a : A)             (* the function returns with a nil error *)
| Failed (e : Error)     (* the function returns the error [e] *)
| Panic (msg : string).  (* a run-time panic unwinds the call *)
Arguments Ok {A}.
Arguments Failed {A}.
Arguments Panic {A}.

Definition M (A : Type) : Type := list Event -> Result A * list Event.

Definition ret {A : Type} (a : A) : M A := fun tr => (Ok a, tr).

Definition bind {A B : Type} (m : M A) (k : A -> M B) : M B :=
  fun tr =>
    match m tr with
    | (Ok a, tr') => k a tr'
    | (Failed e, tr') => (Failed e, tr')
    | (Panic msg, tr') => (Panic msg, tr')
    end.

Definition emit (ev : Event) : M unit := fun tr => (Ok tt, (tr ++ [ev])%list).
Definition fail {A : Type} (e : Error) : M A := fun tr => (Failed e, tr).
Definition panic {A : Type} (msg : string) : M A := fun tr => (Panic msg, tr).

(** [defer d] before the rest [m] of a function body: [d] runs when [m]
    is left, whichever way. *)
Definition defer {A : Type} (d : M unit) (m : M A) : M A :=
  fun tr =>
    match m tr with
    | (r, tr') => (r, snd (d tr'))
    end.

Notation "x <- m ;; k" := (bind m (fun x => k))
  (at level 100, m at next level, k at level 200, right associativity).
Notation "m ;;; k" := (bind m (fun _ => k))
  (at level 100, k at level 200, right associativity).

(** The run of a call from an empty trace. *)
Definition run {A : Type} (m : M A) : Result A * list Event := m [].

(** [a[0]] on a slice of strings. *)
Definition index0 (a : list string) : M string :=
  match a with
  | [] => panic "runtime error: index out of range [0] with length 0"
  | x :: _ => ret x
  end.

(** [strings.SplitN(raw, ",", 1)[0]]: the payload handed to the base64
    decoder by [Txt2Img], [Img2Img] and [ExtraSingleImg]. *)
Definition payload (raw : string) : M string :=
  index0 (SplitN raw ","%char 1).

(** ** [encoding/json]: the encoder *)

(** The exponent and fraction bits of a [float32]. *)
Definition float32_exp (bits : float32) : Z := Z.land (Z.shiftr bits 23) 255.
Definition float32_frac (bits : float32) : Z := Z.land bits 8388607.

(** [f == 0]: both zeros, whatever the sign bit. *)
Definition float32_isZero (bits : float32) : bool :=
  Z.land bits 2147483647 =? 0.

(** [isEmptyValue]: what [omitempty] omits. *)
Definition isEmptyValue (v : GoValue) : bool :=
  match v with
  | VString s => len s =? 0
  | VInt n => n =? 0
  | VFloat32 bits => float32_isZero bits
  | VBool b => negb b
  | VStrings l => (length l =? 0)%nat
  | VAnys l => (length l =? 0)%nat
  | VPtr p => match p with None => true | Some _ => false end
  | VStruct _ => false
  end.

(** The error of the encoder on a [float32] that is infinite or not a
    number. *)
Definition UnsupportedValueError (bits : float32) : GoError :=
  ErrorString ("json: unsupported value: " ++
               (if float32_frac bits =? 0
                then if Z.testbit bits 31 then "-Inf" else "+Inf"
                else "NaN")).

(** The elements of a [[]interface{}], up to the first unsupported one. *)
Fixpoint marshalAnys (l : list GoAny) : GoError + list json :=
  match l with
  | [] => inr []
  | AnyUnsupported e :: _ => inl e
  | AnyJSON j :: l' =>
      match marshalAnys l' with
      | inl e => inl e
      | inr js => inr (j :: js)
      end
  end.

Definition quote : string := String "034"%char EmptyString.
Definition newline : string := String "010"%char EmptyString.

(** ** The standard library, where it is not written out *)

(** [json.Unmarshal(data, result)] at the type [R] of [*result]: the value
    left in [*result], or the error. *)
Class Unmarshaler (R : Type) : Type :=
  json_Unmarshal : bytes -> R -> GoError + R.

Class Stdlib : Type := {
  (** [image.Image], a non-nil image *)
  Image : Type;
  (** [png.Encode(buf, img)]: the bytes written to [buf] and the error *)
  png_Encode : Image -> bytes * option GoError;
  (** [png.Decode(bytes.NewReader(data))] *)
  png_Decode : bytes -> GoError + Image;
  (** the JSON number of a finite [float32], as the encoder prints it *)
  json_float32 : float32 -> string;
  (** the JSON string literal of a string, as the encoder prints it *)
  json_string : string -> string;
  (** the error, if any, of [http.NewRequestWithContext] on a method and
      a URL *)
  http_NewRequest_error : string -> string -> option GoError;
  (** the JSON decoder at each response type *)
  Unmarshal_Txt2ImageResponse :: Unmarshaler (Txt2ImageResponse.t Image);
  Unmarshal_Img2ImgResponse :: Unmarshaler (Img2ImgResponse.t Image);
  Unmarshal_ExtraSingleImgResponse ::
    Unmarshaler (ExtraSingleImgResponse.t Image);
  Unmarshal_ProgressResponse :: Unmarshaler ProgressResponse.t;
  Unmarshal_OptionsResponse :: Unmarshaler OptionsResponse.t;
  Unmarshal_ModelsResponse :: Unmarshaler (list (option ModelsResponse.t));
  Unmarshal_MemoryResponse :: Unmarshaler MemoryResponse.t
}.

Section Sdcli.

Context {std : Stdlib}.

(** *** Encoding a request body *)

(** The JSON value of a Go value: fields in order, those that are empty
    and tagged [omitempty] left out; the first error ends the encoding. *)
Fixpoint marshal (v : GoValue) : GoError + json :=
  match v with
  | VString s => inr (JString s)
  | VInt n => inr (JNumber (fmt_d n))
  | VFloat32 bits =>
      if float32_exp bits =? 255 then inl (UnsupportedValueError bits)
      else inr (JNumber (json_float32 bits))
  | VBool b => inr (JBool b)
  | VStrings l => inr (JArray (map JString l))
  | VAnys l =>
      match marshalAnys l with
      | inl e => inl e
      | inr js => inr (JArray js)
      end
  | VPtr None => inr JNull
  | VPtr (Some v') => marshal v'
  | VStruct fields =>
      let members :=
        (fix members (fs : list (string * bool * GoValue))
           : GoError + list (string * json) :=
           match fs with
           | [] => inr []
           | (name, omitEmpty, fv) :: fs' =>
               if omitEmpty && isEmptyValue fv then members fs'
               else
                 match marshal fv with
                 | inl e => inl e
                 | inr j =>
                     match members fs' with
                     | inl e => inl e
                     | inr ms => inr ((name, j) :: ms)
                     end
                 end
           end) fields in
      match members with
      | inl e => inl e
      | inr ms => inr (JObject ms)
      end
  end.

(** The text of a JSON value, without insignificant white space. *)
Fixpoint render (j : json) : string :=
  match j with
  | JNull => "null"
  | JBool b => fmt_v_bool b
  | JNumber lit => lit
  | JString s => json_string s
  | JArray elems =>
      "[" ++
      (fix go (l : list json) : string :=
         match l with
         | [] => ""
         | x :: l' =>
             match l' with
             | [] => render x
             | _ :: _ => (render x ++ "," ++ go l')%string
             end
         end) elems ++ "]"
  | JObject members =>
      "{" ++
      (fix go (l : list (string * json)) : string :=
         match l with
         | [] => ""
         | (k, x) :: l' =>
             match l' with
             | [] => (quote ++ k ++ quote ++ ":" ++ render x)%string
             | _ :: _ =>
                 (quote ++ k ++ quote ++ ":" ++ render x ++ "," ++ go l')%string
             end
         end) members ++ "}"
  end.

(** [json.NewEncoder(buf).Encode(body)]: the bytes left in [buf], the
    JSON text and a newline. *)
Definition Encode (body : GoValue) : GoError + bytes :=
  match marshal body with
  | inl e => inl e
  | inr j => inr (bytes_of_string (render j ++ newline))
  end.

(** [http.NewRequestWithContext(ctx, method, url, body)]. *)
Definition NewRequestWithContext (method url : string) (body : option bytes)
  : GoError + http.Request.t :=
  match http_NewRequest_error method url with
  | Some e => inl e
  | None =>
      inr {| http.Request.Method := if len method =? 0 then "GET" else method;
             http.Request.URL := url;
             http.Request.Header := ∅;
             http.Request.Body := body |}
  end.

(** *** [doReq] *)

(** [body] is [None] for a nil [body]; [result] is the value [result]
    points to before the call, and the value returned is the one it
    points to after it. *)
Definition doReq {R : Type} {dec : Unmarshaler R} (c : Client)
    (path method : string) (body : option GoValue) (expectedStatus : Z)
    (result : R) : M R :=
  b <- match body with
       | None => ret None
       | Some v =>
           emit EvEncode ;;;
           match Encode v with
           | inl err => fail (wrapError (Some err) None "failed to encode body")
           | inr buf => ret (Some buf)
           end
       end ;;
  let url := baseURL c ++ "/sdapi/v1" ++ path in
  emit (EvNewRequest method url) ;;;
  req <- match NewRequestWithContext method url b with
         | inl err =>
             fail (wrapError (Some err) None "failed to initialize request")
         | inr req => ret req
         end ;;
  let req := http.Request.Header_Set "Content-Type" "application/json" req in
  let req :=
    if negb (len (username c) =? 0) && negb (len (password c) =? 0)
    then http.Request.SetBasicAuth (username c) (password c) req
    else req in
  resp <- match cli c with
          | None =>
              panic "runtime error: invalid memory address or nil pointer dereference"
          | Some do =>
              emit (EvDo req (do req)) ;;;
              match do req with
              | inl err => fail (wrapError (Some err) None "failed to do request")
              | inr resp => ret resp
              end
          end ;;
  defer (emit EvClose)
    (emit EvReadAll ;;;
     data <- match http.Response.Body resp with
             | (_, Some err) =>
                 fail (wrapError (Some err) (Some resp)
                         "failed to read response body")
             | (data, None) => ret data
             end ;;
     if negb (http.Response.StatusCode resp =? expectedStatus)
     then fail (wrapError None (Some resp)
                  ("got bad status " ++ fmt_d (http.Response.StatusCode resp) ++
                   ", body: " ++ string_of_bytes data))
     else
       emit (EvUnmarshal data) ;;;
       match json_Unmarshal data result with
       | inl err => fail (wrapError (Some err) (Some resp) "failed to parse response")
       | inr r => ret r
       end).

(** *** The image helpers *)

Definition Img2RawBase64 (img : Image) : string :=
  let buf := fst (png_Encode img) in
  base64.EncodeToString buf.

Definition Img2Base64 (img : Image) : string :=
  let buf := fst (png_Encode img) in
  "data:image/png;base64," ++ base64.EncodeToString buf.

Definition ImgBytes2Base64 (data : bytes) : string :=
  "data:image/png;base64," ++ base64.EncodeToString data.

(** *** The endpoints *)

(** [&opt] for a request struct with the fields [fs]. *)
Definition addressOf (fs : list (string * bool * GoValue)) : option GoValue :=
  Some (VPtr (Some (VStruct fs))).

(** The loop over [res.Images], the same in [Txt2Img] and [Img2Img]:
    [imgs] and [raws] are the slices built so far. *)
Fixpoint decodeImages (images : list string) (imgs : list Image)
    (raws : list bytes) : M (list Image * list bytes) :=
  match images with
  | [] => ret (imgs, raws)
  | raw :: images' =>
      raw <- payload raw ;;
      match base64.DecodeString raw with
      | inl _ => decodeImages images' imgs raws
      | inr data =>
          let raws := (raws ++ [data])%list in
          match png_Decode data with
          | inl _ => decodeImages images' imgs raws
          | inr img => decodeImages images' (imgs ++ [img])%list raws
          end
      end
  end.

Definition Txt2Img (c : Client) (opt : Txt2ImageOption.t)
  : M (Txt2ImageResponse.t Image) :=
  res <- doReq c "/txt2img" http.MethodPost
           (addressOf (Txt2ImageOption.fields opt)) http.StatusOK
           (@Txt2ImageResponse.zero Image) ;;
  p <- decodeImages (Txt2ImageResponse.Images res) [] [] ;;
  ret (Txt2ImageResponse.mk
         (Txt2ImageResponse.Images res) (Txt2ImageResponse.Parameters res)
         (Txt2ImageResponse.Info res) (fst p) (snd p)).

Definition Img2Img (c : Client) (opt : Img2ImgOption.t)
  : M (Img2ImgResponse.t Image) :=
  res <- doReq c "/img2img" http.MethodPost
           (addressOf (Img2ImgOption.fields opt)) http.StatusOK
           (@Img2ImgResponse.zero Image) ;;
  p <- decodeImages (Img2ImgResponse.Images res) [] [] ;;
  ret (Img2ImgResponse.mk
         (Img2ImgResponse.Images res) (Img2ImgResponse.Parameters res)
         (Img2ImgResponse.Info res) (fst p) (snd p)).

Definition ExtraSingleImg (c : Client) (opt : ExtraSingleImgOption.t)
  : M (ExtraSingleImgResponse.t Image) :=
  res <- doReq c "/extra-single-image" http.MethodPost
           (addressOf (ExtraSingleImgOption.fields opt)) http.StatusOK
           (@ExtraSingleImgResponse.zero Image) ;;
  raw <- payload (ExtraSingleImgResponse.Image res) ;;
  match base64.DecodeString raw with
  | inl _ => ret res
  | inr data =>
      let res := ExtraSingleImgResponse.mk
                   (ExtraSingleImgResponse.HTMLInfo res)
                   (ExtraSingleImgResponse.Image res)
                   (ExtraSingleImgResponse.ParsedImage res) data in
      match png_Decode data with
      | inl _ => ret res
      | inr img =>
          ret (ExtraSingleImgResponse.mk
                 (ExtraSingleImgResponse.HTMLInfo res)
                 (ExtraSingleImgResponse.Image res)
                 (Some img) (ExtraSingleImgResponse.RawImage res))
      end
  end.

Definition GetProgress (c : Client) (skipCurrentImg : bool)
  : M ProgressResponse.t :=
  doReq c ("/progress?skip_current_image=" ++ fmt_v_bool skipCurrentImg)
    http.MethodGet None http.StatusOK ProgressResponse.zero.

Definition GetOptions (c : Client) : M OptionsResponse.t :=
  doReq c "/options" http.MethodGet None http.StatusOK OptionsResponse.zero.

Definition GetModels (c : Client) : M (list (option ModelsResponse.t)) :=
  doReq c "/sd-models" http.MethodGet None http.StatusOK [].

Definition GetMemory (c : Client) : M MemoryResponse.t :=
  doReq c "/memory" http.MethodGet None http.StatusOK MemoryResponse.zero.

End Sdcli.

(** ** The endpoint operations as one family *)

Inductive Call : Type :=
| CallTxt2Img (opt : Txt2ImageOption.t)
| CallImg2Img (opt : Img2ImgOption.t)
| CallExtraSingleImg (opt : ExtraSingleImgOption.t)
| CallGetProgress (skipCurrentImg : bool)
| CallGetOptions
| CallGetModels
| CallGetMemory.

(** The [error] a caller gets back, the result value left aside. *)
Definition errorOf {A : Type} (r : Result A) : Result unit :=
  match r with
  | Ok _ => Ok tt
  | Failed e => Failed e
  | Panic msg => Panic msg
  end.

Definition outcome {A : Type} (m : M A) : Result unit * list Event :=
  (errorOf (fst (run m)), snd (run m)).

Section Calls.

Context {std : Stdlib}.

(** One call of an endpoint operation on the client [c]: the error
    returned and the trace of the call. *)
Definition invoke (c : Client) (call : Call) : Result unit * list Event :=
  match call with
  | CallTxt2Img opt => outcome (Txt2Img c opt)
  | CallImg2Img opt => outcome (Img2Img c opt)
  | CallExtraSingleImg opt => outcome (ExtraSingleImg c opt)
  | CallGetProgress skipCurrentImg => outcome (GetProgress c skipCurrentImg)
  | CallGetOptions => outcome (GetOptions c)
  | CallGetModels => outcome (GetModels c)
  | CallGetMemory => outcome (GetMemory c)
  end.

(** The error of the JSON decoder on [data], if any. *)
Definition decodeError {R : Type} {dec : Unmarshaler R} (data : bytes)
    (result : R) : option GoError :=
  match json_Unmarshal data result with
  | inl e => Some e
  | inr _ => None
  end.

(** The same at the response type of an endpoint operation, on the value
    the operation hands to the decoder. *)
Definition unmarshalError (call : Call) (data : bytes) : option GoError :=
  match call with
  | CallTxt2Img _ => decodeError data (@Txt2ImageResponse.zero Image)
  | CallImg2Img _ => decodeError data (@Img2ImgResponse.zero Image)
  | CallExtraSingleImg _ => decodeError data (@ExtraSingleImgResponse.zero Image)
  | CallGetProgress _ => decodeError data ProgressResponse.zero
  | CallGetOptions => decodeError data OptionsResponse.zero
  | CallGetModels => decodeError data (@nil (option ModelsResponse.t))
  | CallGetMemory => decodeError data MemoryResponse.zero
  end.

(** The path, the method and the body of the request of each endpoint
    operation. *)
Definition pathOf (call : Call) : string :=
  match call with
  | CallTxt2Img _ => "/txt2img"
  | CallImg2Img _ => "/img2img"
  | CallExtraSingleImg _ => "/extra-single-image"
  | CallGetProgress skipCurrentImg =>
      "/progress?skip_current_image=" ++ fmt_v_bool skipCurrentImg
  | CallGetOptions => "/options"
  | CallGetModels => "/sd-models"
  | CallGetMemory => "/memory"
  end.

Definition methodOf (call : Call) : string :=
  match call with
  | CallTxt2Img _ | CallImg2Img _ | CallExtraSingleImg _ => http.MethodPost
  | _ => http.MethodGet
  end.

Definition bodyOf (call : Call) : option GoValue :=
  match call with
  | CallTxt2Img opt => addressOf (Txt2ImageOption.fields opt)
  | CallImg2Img opt => addressOf (Img2ImgOption.fields opt)
  | CallExtraSingleImg opt => addressOf (ExtraSingleImgOption.fields opt)
  | _ => None
  end.

(** *** The runs of [doReq] *)

(** The body reader of a request: the encoded body, or the encoder's
    error. *)
Definition encodeBody (body : option GoValue) : GoError + option bytes :=
  match body with
  | None => inr None
  | Some v =>
      match Encode v with
      | inl e => inl e
      | inr buf => inr (Some buf)
      end
  end.

Definition encodeEvents (body : option GoValue) : list Event :=
  match body with
  | None => []
  | Some _ => [EvEncode]
  end.

(** The request [doReq] hands to the HTTP client, once built. *)
Definition requestOf (c : Client) (path method : string) (b : option bytes)
  : http.Request.t :=
  let req := {| http.Request.Method := if len method =? 0 then "GET" else method;
                http.Request.URL := baseURL c ++ "/sdapi/v1" ++ path;
                http.Request.Header := ∅;
                http.Request.Body := b |} in
  let req := http.Request.Header_Set "Content-Type" "application/json" req in
  if negb (len (username c) =? 0) && negb (len (password c) =? 0)
  then http.Request.SetBasicAuth (username c) (password c) req
  else req.

(** The eight ways through [doReq], each with the value returned and
    the trace left. *)
Inductive DoReqRun {R : Type} {dec : Unmarshaler R} (c : Client)
    (path method : string) (body : option GoValue) (expected : Z) (result : R)
  : Result R -> list Event -> Prop :=
| RunEncodeError (err : GoError) :
    encodeBody body = inl err ->
    DoReqRun c path method body expected result
      (Failed (wrapError (Some err) None "failed to encode body"))
      (encodeEvents body)
| RunRequestError (b : option bytes) (err : GoError) :
    encodeBody body = inr b ->
    http_NewRequest_error method (baseURL c ++ "/sdapi/v1" ++ path) = Some err ->
    DoReqRun c path method body expected result
      (Failed (wrapError (Some err) None "failed to initialize request"))
      (encodeEvents body ++
       [EvNewRequest method (baseURL c ++ "/sdapi/v1" ++ path)])
| RunNilClient (b : option bytes) :
    encodeBody body = inr b ->
    http_NewRequest_error method (baseURL c ++ "/sdapi/v1" ++ path) = None ->
    cli c = None ->
    DoReqRun c path method body expected result
      (Panic "runtime error: invalid memory address or nil pointer dereference")
      (encodeEvents body ++
       [EvNewRequest method (baseURL c ++ "/sdapi/v1" ++ path)])
| RunDoError (b : option bytes) (do : http.Client) (err : GoError) :
    encodeBody body = inr b ->
    http_NewRequest_error method (baseURL c ++ "/sdapi/v1" ++ path) = None ->
    cli c = Some do ->
    do (requestOf c path method b) = inl err ->
    DoReqRun c path method body expected result
      (Failed (wrapError (Some err) None "failed to do request"))
      (encodeEvents body ++
       [EvNewRequest method (baseURL c ++ "/sdapi/v1" ++ path);
        EvDo (requestOf c path method b) (inl err)])
| RunReadError (b : option bytes) (do : http.Client) (resp : http.Response.t)
    (data : bytes) (err : GoError) :
    encodeBody body = inr b ->
    http_NewRequest_error method (baseURL c ++ "/sdapi/v1" ++ path) = None ->
    cli c = Some do ->
    do (requestOf c path method b) = inr resp ->
    http.Response.Body resp = (data, Some err) ->
    DoReqRun c path method body expected result
      (Failed (wrapError (Some err) (Some resp) "failed to read response body"))
      (encodeEvents body ++
       [EvNewRequest method (baseURL c ++ "/sdapi/v1" ++ path);
        EvDo (requestOf c path method b) (inr resp); EvReadAll; EvClose])
| RunBadStatus (b : option bytes) (do : http.Client) (resp : http.Response.t)
    (data : bytes) :
    encodeBody body = inr b ->
    http_NewRequest_error method (baseURL c ++ "/sdapi/v1" ++ path) = None ->
    cli c = Some do ->
    do (requestOf c path method b) = inr resp ->
    http.Response.Body resp = (data, None) ->
    http.Response.StatusCode resp <> expected ->
    DoReqRun c path method body expected result
      (Failed (wrapError None (Some resp)
                 ("got bad status " ++ fmt_d (http.Response.StatusCode resp) ++
                  ", body: " ++ string_of_bytes data)))
      (encodeEvents body ++
       [EvNewRequest method (baseURL c ++ "/sdapi/v1" ++ path);
        EvDo (requestOf c path method b) (inr resp); EvReadAll; EvClose])
| RunDecodeError (b : option bytes) (do : http.Client) (resp : http.Response.t)
    (data : bytes) (err : GoError) :
    encodeBody body = inr b ->
    http_NewRequest_error method (baseURL c ++ "/sdapi/v1" ++ path) = None ->
    cli c = Some do ->
    do (requestOf c path method b) = inr resp ->
    http.Response.Body resp = (data, None) ->
    http.Response.StatusCode resp = expected ->
    json_Unmarshal data result = inl err ->
    DoReqRun c path method body expected result
      (Failed (wrapError (Some err) (Some resp) "failed to parse response"))
      (encodeEvents body ++
       [EvNewRequest method (baseURL c ++ "/sdapi/v1" ++ path);
        EvDo (requestOf c path method b) (inr resp); EvReadAll;
        EvUnmarshal data; EvClose])
| RunOk (b : option bytes) (do : http.Client) (resp : http.Response.t)
    (data : bytes) (r : R) :
    encodeBody body = inr b ->
    http_NewRequest_error method (baseURL c ++ "/sdapi/v1" ++ path) = None ->
    cli c = Some do ->
    do (requestOf c path method b) = inr resp ->
    http.Response.Body resp = (data, None) ->
    http.Response.StatusCode resp = expected ->
    json_Unmarshal data result = inr r ->
    DoReqRun c path method body expected result (Ok r)
      (encodeEvents body ++
       [EvNewRequest method (baseURL c ++ "/sdapi/v1" ++ path);
        EvDo (requestOf c path method b) (inr resp); EvReadAll;
        EvUnmarshal data; EvClose]).

(** The requests that went out in a trace. *)
Fixpoint requests (tr : list Event) : list http.Request.t :=
  match tr with
  | [] => []
  | EvDo req _ :: tr' => req :: requests tr'
  | _ :: tr' => requests tr'
  end.

(** *** The decodings of the enrichment, one entry at a time *)

(** The bytes of an image string, when it is standard base64. *)
Definition decodeRaw (raw : string) : option bytes :=
  match base64.DecodeString raw with
  | inl _ => None
  | inr data => Some data
  end.

(** The image of a byte slice, when it is a PNG file. *)
Definition decodePNG (data : bytes) : option Image :=
  match png_Decode data with
  | inl _ => None
  | inr img => Some img
  end.

(** The image of an image string, when both decodings succeed. *)
Definition decodeImage (raw : string) : option Image :=
  match decodeRaw raw with
  | None => None
  | Some data => decodePNG data
  end.

End Calls.


(** The payload extraction as the specification words it: the text
    before the first comma, and the whole string when there is none. *)
Definition prefixBeforeComma (raw : string) : string :=
  let m := IndexByte raw ","%char in
  if m <? 0 then raw else slice raw 0 m.

(** ** A fixture: a server with canned answers and a toy codec *)

Module Fixture.

(** The signature every PNG file starts with. *)
Definition pngSignature : bytes :=
  [Byte.x89; Byte.x50; Byte.x4e; Byte.x47; Byte.x0d; Byte.x0a; Byte.x1a; Byte.x0a].

Fixpoint hasPrefix (data prefix : bytes) : bool :=
  match prefix, data with
  | [], _ => true
  | p :: prefix', d :: data' => Byte.eqb p d && hasPrefix data' prefix'
  | _ :: _, [] => false
  end.

(** Two byte slices: one that passes for a PNG file, one that does not. *)
Definition pngFile : bytes := (pngSignature ++ [Byte.x00; Byte.x01])%list.
Definition textFile : bytes := bytes_of_string "not a png".

(** The image strings of the canned txt2img answer: a PNG file, the same
    behind a data-URL prefix, a file that is no PNG, and a string that
    is no base64. *)
Definition images : list string :=
  [ base64.EncodeToString pngFile;
    "data:image/png;base64," ++ base64.EncodeToString pngFile;
    base64.EncodeToString textFile;
    "@@@" ].

Definition imagesBody : bytes := bytes_of_string "{images}".

Definition syntaxError : GoError :=
  ErrorString "invalid character 'b' looking for beginning of value".

(** A decoder that knows one body and rejects the others. *)
Definition decodeOnly {R : Type} (body : bytes) (value : R) : Unmarshaler R :=
  fun data _ =>
    if String.eqb (string_of_bytes data) (string_of_bytes body)
    then inr value else inl syntaxError.

(** An image is the PNG file itself; a byte slice decodes when it starts
    with the PNG signature. *)
Definition stdlib : Stdlib := {|
  Image := bytes;
  png_Encode := fun img => (img, None);
  png_Decode := fun data =>
    if hasPrefix data pngSignature then inr data
    else inl (ErrorString "png: invalid format: not a PNG file");
  json_float32 := fun _ => "0";
  json_string := fun s => quote ++ s ++ quote;
  http_NewRequest_error := fun _ _ => None;
  Unmarshal_Txt2ImageResponse :=
    decodeOnly imagesBody (Txt2ImageResponse.mk images None "x" [] []);
  Unmarshal_Img2ImgResponse :=
    decodeOnly imagesBody (Img2ImgResponse.mk images None "x" [] []);
  Unmarshal_ExtraSingleImgResponse :=
    decodeOnly imagesBody
      (ExtraSingleImgResponse.mk "" (base64.EncodeToString pngFile) None []);
  Unmarshal_ProgressResponse := decodeOnly imagesBody ProgressResponse.zero;
  Unmarshal_OptionsResponse := decodeOnly imagesBody OptionsResponse.zero;
  Unmarshal_ModelsResponse := decodeOnly imagesBody [];
  Unmarshal_MemoryResponse := decodeOnly imagesBody MemoryResponse.zero
|}.

(** A server that answers every request with the same status and body. *)
Definition server (status : Z) (body : string) : http.Client :=
  fun _ => inr (http.Response.mk status (bytes_of_string body, None)).

(** A client of that server, built by [NewClient]. *)
Definition client (status : Z) (body : string) : Client :=
  fst (NewClient "" "" "" (Some (server status body))).

End Fixture.

Example fixture_txt2img :
  match @run _ (@Txt2Img Fixture.stdlib (Fixture.client 200 "{images}")
                  Txt2ImageOption.zero) with
  | (Ok res, _) =>
      length (Txt2ImageResponse.Images res) = 4%nat
      /\ Txt2ImageResponse.RawImages res = [Fixture.pngFile; Fixture.textFile]
      /\ Txt2ImageResponse.ParsedImages res = [Fixture.pngFile]
      /\ Txt2ImageResponse.Info res = "x"
  | _ => False
  end.
Proof. vm_compute. repeat split; reflexivity. Qed.

(** ** The members of an encoded struct, for the statements *)

Section Members.

Context {std : Stdlib}.

(** The members of a struct, field by field: what the inner loop of
    [marshal] computes. *)
Fixpoint marshalFields (fs : list (string * bool * GoValue))
  : GoError + list (string * json) :=
  match fs with
  | [] => inr []
  | (name, omitEmpty, fv) :: fs' =>
      if omitEmpty && isEmptyValue fv then marshalFields fs'
      else
        match marshal fv with
        | inl e => inl e
        | inr j =>
            match marshalFields fs' with
            | inl e => inl e
            | inr ms => inr ((name, j) :: ms)
            end
        end
  end.

End Members.

(** Whether a struct has a field with the key [key] that is not empty. *)
Definition sendsKey (key : string) (fs : list (string * bool * GoValue))
  : bool :=
  existsb (fun f => String.eqb (fst (fst f)) key
                    && negb (isEmptyValue (snd f))) fs.

(** ** More fixtures: faults and options *)

Module Faults.

(** An HTTP client that cannot connect. *)
Definition refusing : http.Client :=
  fun _ => inl (ErrorString "dial tcp 127.0.0.1:7860: connect: connection refused").

(** A server whose answer breaks off in the middle of the body. *)
Definition truncating (status : Z) : http.Client :=
  fun _ => inr (http.Response.mk status
                  (bytes_of_string "{ima", Some (ErrorString "unexpected EOF"))).

(** The quiet NaN of [float32], and one half. *)
Definition NaN : float32 := 2143289344.
Definition half : float32 := 1056964608.

(** Options with a NaN for [CfgScale], and nothing else set. *)
Definition nanOptions : Txt2ImageOption.t :=
  Txt2ImageOption.mk "" "" 0 NaN 0 0 "" None false 0 0 0 0 "" 0 0 0 [] 0 0 0
    0 0 "" 0 0 false false 0 0 0 0 0 false [] "".

(** Options with a prompt, twenty steps and a denoising strength of one
    half; the seed is set to zero. *)
Definition catOptions : Txt2ImageOption.t :=
  Txt2ImageOption.mk "a cat" "" 20 0 0 0 "" None false half 0 0 0 "" 0 0 0
    [] 0 0 0 0 0 "" 0 0 false false 0 0 0 0 0 false [] "".

(** The library of [Fixture], with a URL check that wants a scheme and a
    txt2img decoder that answers the given image strings. *)
Definition stdlib (images : list string) : Stdlib := {|
  Image := bytes;
  png_Encode := fun img => (img, None);
  png_Decode := @png_Decode Fixture.stdlib;
  json_float32 := @json_float32 Fixture.stdlib;
  json_string := @json_string Fixture.stdlib;
  http_NewRequest_error := fun _ url =>
    match url with
    | String ":" _ => Some (ErrorString "missing protocol scheme")
    | _ => None
    end;
  Unmarshal_Txt2ImageResponse :=
    Fixture.decodeOnly Fixture.imagesBody
      (Txt2ImageResponse.mk images None "x" [] []);
  Unmarshal_Img2ImgResponse := @Unmarshal_Img2ImgResponse Fixture.stdlib;
  Unmarshal_ExtraSingleImgResponse :=
    @Unmarshal_ExtraSingleImgResponse Fixture.stdlib;
  Unmarshal_ProgressResponse := @Unmarshal_ProgressResponse Fixture.stdlib;
  Unmarshal_OptionsResponse := @Unmarshal_OptionsResponse Fixture.stdlib;
  Unmarshal_ModelsResponse := @Unmarshal_ModelsResponse Fixture.stdlib;
  Unmarshal_MemoryResponse := @Unmarshal_MemoryResponse Fixture.stdlib
|}.

End Faults.

(** * Properties *)

(** ** The monad and the library models *)

Lemma len_nonneg (s : string) : 0 <= len s.
Proof. unfold len. lia. Qed.

Lemma len_zero (s : string) : (len s =? 0) = true <-> s = "".
Proof.
  unfold len. destruct s as [|a s]; simpl.
  - split; reflexivity.
  - split; discriminate.
Qed.

(** With a limit of one, [SplitN] makes no cut at all. *)
Lemma SplitN_one (s : string) (sep : ascii) : SplitN s sep 1 = [s].
Proof.
  unfold SplitN. simpl.
  pose proof (len_nonneg s) as Hlen.
  destruct (1 >? len s + 1) eqn:Hgt.
  - apply Z.gtb_lt in Hgt. lia.
  - reflexivity.
Qed.

(** With a limit of two, it cuts at the first separator. *)
Example SplitN_two :
  SplitN "data:image/png;base64,AAAA" ","%char 2
  = ["data:image/png;base64"; "AAAA"].
Proof. reflexivity. Qed.

Lemma payload_run (raw : string) (tr : list Event) :
  payload raw tr = (Ok raw, tr).
Proof. unfold payload. rewrite SplitN_one. reflexivity. Qed.

Lemma omap_length_le {A B : Type} (f : A -> option B) (l : list A) :
  (length (omap f l) <= length l)%nat.
Proof.
  unfold omap. induction l as [|x l IH]; simpl; [lia|].
  destruct (f x); simpl; lia.
Qed.

Lemma omap_length_lt {A B : Type} (f : A -> option B) (l : list A) (x : A) :
  In x l -> f x = None -> (length (omap f l) < length l)%nat.
Proof.
  pose proof (omap_length_le f) as Hle. unfold omap in *.
  induction l as [|y l IH]; simpl; [tauto|].
  intros [->|Hin] Hx.
  - rewrite Hx. specialize (Hle l). lia.
  - specialize (IH Hin Hx). destruct (f y); simpl; lia.
Qed.

(** ** C2: the payload extraction *)

(** The slip behind C2: the call [strings.SplitN(raw, ",", 1)[0]] asks
    for a cut at the first comma, but with a limit of one [SplitN] makes
    no cut, so the call hands back the string it was given. *)
Lemma payload_is_whole_string (raw : string) :
  run (payload raw) = (Ok raw, []).
Proof. apply payload_run. Qed.

(** C2, on the code as it is. On the image string
    [data:image/png;base64,AAAA], whose first comma is at index 21, the
    payload extraction returns the whole string, where the claim asks
    for the prefix before the first comma, [data:image/png;base64]. *)
Lemma payload_keeps_text_after_comma :
  IndexByte "data:image/png;base64,AAAA" ","%char = 21
  /\ prefixBeforeComma "data:image/png;base64,AAAA" = "data:image/png;base64"
  /\ fst (run (payload "data:image/png;base64,AAAA"))
     = Ok "data:image/png;base64,AAAA"
  /\ fst (run (payload "data:image/png;base64,AAAA"))
     <> Ok (prefixBeforeComma "data:image/png;base64,AAAA").
Proof. repeat split; try reflexivity. vm_compute. discriminate. Qed.

(** What the decoder then makes of a data URL: it stops at the colon. *)
Example data_url_is_not_base64 :
  base64.DecodeString ("data:image/png;base64," ++
                       base64.EncodeToString Fixture.pngFile)
  = inl (CorruptInputError 4).
Proof. reflexivity. Qed.

(** ** C10 and C7: construction *)

(** C10. [NewClient] returns a nil error for every base URL, username,
    password and HTTP client handle, the nil handle included. *)
Theorem NewClient_never_fails (baseURL username password : string)
    (httpCli : option http.Client) :
  snd (NewClient baseURL username password httpCli) = None.
Proof. reflexivity. Qed.

Lemma NewClient_baseURL_default (username password : string)
    (httpCli : option http.Client) :
  baseURL (fst (NewClient "" username password httpCli))
  = "http://127.0.0.1:7860".
Proof. reflexivity. Qed.

Lemma NewClient_baseURL_kept (url username password : string)
    (httpCli : option http.Client) :
  url <> "" ->
  baseURL (fst (NewClient url username password httpCli)) = url.
Proof.
  intros Hne. unfold NewClient. simpl.
  destruct (len url =? 0) eqn:Hlen; [|reflexivity].
  apply len_zero in Hlen. contradiction.
Qed.

Lemma NewClient_cli (url username password : string)
    (httpCli : option http.Client) :
  cli (fst (NewClient url username password httpCli)) = httpCli.
Proof. reflexivity. Qed.

(** [NewClient] leaves both credentials empty, whatever it is given. *)
Lemma NewClient_credentials (url u p : string) (httpCli : option http.Client) :
  username (fst (NewClient url u p httpCli)) = ""
  /\ password (fst (NewClient url u p httpCli)) = "".
Proof. split; reflexivity. Qed.

(** ** The runs of [doReq] *)

Section DoReq.

Context {std : Stdlib}.

Local Ltac run_case ctor :=
  match goal with
  | |- DoReqRun ?c ?p ?m ?body ?e ?r _ _ =>
      eapply (ctor c p m body e r); eauto
  end.

(** Every run of [doReq] is one of them: [doReq] always returns or
    panics, and does nothing else. *)
Lemma doReq_run {R : Type} {dec : Unmarshaler R} (c : Client)
    (path method : string) (body : option GoValue) (expected : Z) (result : R) :
  DoReqRun c path method body expected result
    (fst (run (doReq c path method body expected result)))
    (snd (run (doReq c path method body expected result))).
Proof.
  assert (Henc : forall v buf, Encode v = inr buf ->
                 encodeBody (Some v) = inr (Some buf)).
  { intros v buf HE. unfold encodeBody. rewrite HE. reflexivity. }
  unfold run, doReq, bind, defer, emit, fail, ret, panic, NewRequestWithContext.
  destruct body as [v|]; [destruct (Encode v) as [e|buf] eqn:HE|]; simpl.
  { run_case (@RunEncodeError std R dec). unfold encodeBody. rewrite HE. reflexivity. }
  all: destruct (http_NewRequest_error method _) as [e|] eqn:Hreq; simpl;
    [run_case (@RunRequestError std R dec)|].
  all: fold (requestOf c path method (Some buf)) || fold (requestOf c path method None).
  all: destruct (cli c) as [do|] eqn:Hcli; simpl;
    [|run_case (@RunNilClient std R dec)].
  all: destruct (do _) as [e|resp] eqn:Hdo; simpl;
    [run_case (@RunDoError std R dec)|].
  all: destruct (http.Response.Body resp) as [data [e|]] eqn:Hread; simpl;
    [run_case (@RunReadError std R dec)|].
  all: destruct (http.Response.StatusCode resp =? expected) eqn:Hst; simpl;
    [apply Z.eqb_eq in Hst|apply Z.eqb_neq in Hst; run_case (@RunBadStatus std R dec)].
  all: destruct (json_Unmarshal data result) as [e|r] eqn:Hdec; simpl;
    [run_case (@RunDecodeError std R dec)|run_case (@RunOk std R dec)].
Qed.

Lemma encodeEvents_no_answer (body : option GoValue) (ev : Event) :
  In ev (encodeEvents body) -> ev = EvEncode.
Proof. destruct body; simpl; intuition. Qed.

(** Splits a membership in the trace of a run into the events it can be. *)
Local Ltac in_trace H :=
  first
    [ apply in_app_or in H; destruct H as [H|H];
      [ apply encodeEvents_no_answer in H; discriminate H
      | simpl in H;
        repeat match type of H with
               | _ \/ _ => destruct H as [H|H]
               | False => destruct H
               end; try discriminate H ]
    | apply encodeEvents_no_answer in H; discriminate H ].

(** A request that goes out is the one [requestOf] describes. *)
Lemma doReq_request {R : Type} {dec : Unmarshaler R} (c : Client)
    (path method : string) (body : option GoValue) (expected : Z) (result : R)
    (r : Result R) (tr : list Event) (req : http.Request.t)
    (answer : GoError + http.Response.t) :
  DoReqRun c path method body expected result r tr ->
  In (EvDo req answer) tr ->
  exists b, encodeBody body = inr b /\ req = requestOf c path method b.
Proof.
  intros Hrun Hin.
  destruct Hrun; in_trace Hin; injection Hin as <- <-; eauto.
Qed.


(** When the answer is a response with the expected status and a body
    the decoder rejects, the run ends in the decode error. *)
Lemma doReq_decode_error {R : Type} {dec : Unmarshaler R} (c : Client)
    (path method : string) (body : option GoValue) (expected : Z) (result : R)
    (r : Result R) (tr : list Event) (req : http.Request.t)
    (resp : http.Response.t) (data : bytes) (err : GoError) :
  DoReqRun c path method body expected result r tr ->
  In (EvDo req (inr resp)) tr ->
  http.Response.Body resp = (data, None) ->
  http.Response.StatusCode resp = expected ->
  json_Unmarshal data result = inl err ->
  r = Failed (wrapError (Some err) (Some resp) "failed to parse response").
Proof.
  intros Hrun Hin Hbody Hst Hdec.
  destruct Hrun; in_trace Hin; injection Hin as <- <-; try congruence.
Qed.

(** [doReq] panics on a nil HTTP client only. *)
Lemma doReq_panic {R : Type} {dec : Unmarshaler R} (c : Client)
    (path method : string) (body : option GoValue) (expected : Z) (result : R)
    (r : Result R) (tr : list Event) (msg : string) :
  DoReqRun c path method body expected result r tr ->
  r = Panic msg -> cli c = None.
Proof. intros Hrun Hr. destruct Hrun; congruence. Qed.

End DoReq.

(** ** The runs of the endpoint operations *)

Section Endpoints.

Context {std : Stdlib}.

(** The loop never fails and leaves no trace: it appends to [raws] the
    entries that are base64, and to [imgs] those of them that are PNG
    files. *)
Lemma decodeImages_run (images : list string) (imgs : list Image)
    (raws : list bytes) (tr : list Event) :
  decodeImages images imgs raws tr
  = (Ok ((imgs ++ omap decodeImage images)%list,
         (raws ++ omap decodeRaw images)%list), tr).
Proof.
  unfold omap.
  revert imgs raws. induction images as [|raw images IH]; intros imgs raws.
  - simpl. rewrite !app_nil_r. reflexivity.
  - simpl. unfold bind. rewrite payload_run.
    assert (Hraw : decodeRaw raw = match base64.DecodeString raw with
                                   | inl _ => None
                                   | inr data => Some data
                                   end) by reflexivity.
    assert (Himg : decodeImage raw = match decodeRaw raw with
                                     | None => None
                                     | Some data => decodePNG data
                                     end) by reflexivity.
    destruct (base64.DecodeString raw) as [e|data].
    + rewrite IH, Himg, Hraw. reflexivity.
    + rewrite Himg, Hraw. unfold decodePNG.
      destruct (png_Decode data) as [e|img].
      * rewrite IH, <- (app_assoc raws). reflexivity.
      * rewrite IH, <- (app_assoc raws), <- (app_assoc imgs). reflexivity.
Qed.

(** The images that decode are among the byte slices that decode. *)
Lemma omap_decodeImage (images : list string) :
  omap decodeImage images = omap decodePNG (omap decodeRaw images).
Proof.
  unfold omap. induction images as [|raw images IH]; [reflexivity|].
  simpl.
  change (decodeImage raw)
    with (match decodeRaw raw with
          | None => None
          | Some data => decodePNG data
          end).
  destruct (decodeRaw raw) as [data|]; simpl.
  - destruct (decodePNG data); rewrite IH; reflexivity.
  - apply IH.
Qed.

(** [Txt2Img] is [doReq] followed by the loop. *)
Lemma Txt2Img_run (c : Client) (opt : Txt2ImageOption.t) :
  run (Txt2Img c opt)
  = match run (doReq c "/txt2img" http.MethodPost
                 (addressOf (Txt2ImageOption.fields opt)) http.StatusOK
                 (@Txt2ImageResponse.zero Image)) with
    | (Ok res, tr) =>
        (Ok (Txt2ImageResponse.mk
               (Txt2ImageResponse.Images res) (Txt2ImageResponse.Parameters res)
               (Txt2ImageResponse.Info res)
               (omap decodeImage (Txt2ImageResponse.Images res))
               (omap decodeRaw (Txt2ImageResponse.Images res))), tr)
    | (Failed e, tr) => (Failed e, tr)
    | (Panic msg, tr) => (Panic msg, tr)
    end.
Proof.
  unfold Txt2Img, run, bind at 1.
  destruct (doReq _ _ _ _ _ _ _) as [[res|e|msg] tr]; try reflexivity.
  unfold bind. rewrite decodeImages_run. reflexivity.
Qed.

Lemma Img2Img_run (c : Client) (opt : Img2ImgOption.t) :
  run (Img2Img c opt)
  = match run (doReq c "/img2img" http.MethodPost
                 (addressOf (Img2ImgOption.fields opt)) http.StatusOK
                 (@Img2ImgResponse.zero Image)) with
    | (Ok res, tr) =>
        (Ok (Img2ImgResponse.mk
               (Img2ImgResponse.Images res) (Img2ImgResponse.Parameters res)
               (Img2ImgResponse.Info res)
               (omap decodeImage (Img2ImgResponse.Images res))
               (omap decodeRaw (Img2ImgResponse.Images res))), tr)
    | (Failed e, tr) => (Failed e, tr)
    | (Panic msg, tr) => (Panic msg, tr)
    end.
Proof.
  unfold Img2Img, run, bind at 1.
  destruct (doReq _ _ _ _ _ _ _) as [[res|e|msg] tr]; try reflexivity.
  unfold bind. rewrite decodeImages_run. reflexivity.
Qed.

(** [ExtraSingleImg] is [doReq] followed by the two decodings, each
    recorded when it succeeds. *)
Lemma ExtraSingleImg_run (c : Client) (opt : ExtraSingleImgOption.t) :
  run (ExtraSingleImg c opt)
  = match run (doReq c "/extra-single-image" http.MethodPost
                 (addressOf (ExtraSingleImgOption.fields opt)) http.StatusOK
                 (@ExtraSingleImgResponse.zero Image)) with
    | (Ok res, tr) =>
        (Ok match decodeRaw (ExtraSingleImgResponse.Image res) with
            | None => res
            | Some data =>
                ExtraSingleImgResponse.mk
                  (ExtraSingleImgResponse.HTMLInfo res)
                  (ExtraSingleImgResponse.Image res)
                  match decodePNG data with
                  | None => ExtraSingleImgResponse.ParsedImage res
                  | Some img => Some img
                  end
                  data
            end, tr)
    | (Failed e, tr) => (Failed e, tr)
    | (Panic msg, tr) => (Panic msg, tr)
    end.
Proof.
  unfold ExtraSingleImg, run, bind at 1.
  destruct (doReq _ _ _ _ _ _ _) as [[res|e|msg] tr]; try reflexivity.
  unfold bind. rewrite payload_run. unfold decodeRaw, decodePNG.
  destruct (base64.DecodeString _) as [e|data]; [reflexivity|].
  destruct (png_Decode data); reflexivity.
Qed.

Lemma ExtraSingleImg_outcome (c : Client) (opt : ExtraSingleImgOption.t) :
  outcome (ExtraSingleImg c opt)
  = outcome (doReq c "/extra-single-image" http.MethodPost
               (addressOf (ExtraSingleImgOption.fields opt)) http.StatusOK
               (@ExtraSingleImgResponse.zero Image)).
Proof.
  unfold outcome. rewrite ExtraSingleImg_run.
  destruct (run (doReq _ _ _ _ _ _)) as [[res|e|msg] tr]; reflexivity.
Qed.

Lemma Txt2Img_outcome (c : Client) (opt : Txt2ImageOption.t) :
  outcome (Txt2Img c opt)
  = outcome (doReq c "/txt2img" http.MethodPost
               (addressOf (Txt2ImageOption.fields opt)) http.StatusOK
               (@Txt2ImageResponse.zero Image)).
Proof.
  unfold outcome. rewrite Txt2Img_run.
  destruct (run (doReq _ _ _ _ _ _)) as [[res|e|msg] tr]; reflexivity.
Qed.

Lemma Img2Img_outcome (c : Client) (opt : Img2ImgOption.t) :
  outcome (Img2Img c opt)
  = outcome (doReq c "/img2img" http.MethodPost
               (addressOf (Img2ImgOption.fields opt)) http.StatusOK
               (@Img2ImgResponse.zero Image)).
Proof.
  unfold outcome. rewrite Img2Img_run.
  destruct (run (doReq _ _ _ _ _ _)) as [[res|e|msg] tr]; reflexivity.
Qed.

(** Every endpoint operation is one call of [doReq], expecting status
    200, and adds neither an error nor an event to it. *)
Lemma invoke_doReq (c : Client) (call : Call) :
  exists (R : Type) (dec : Unmarshaler R) (result : R),
    invoke c call
    = outcome (doReq c (pathOf call) (methodOf call) (bodyOf call)
                 http.StatusOK result)
    /\ forall data, unmarshalError call data = decodeError data result.
Proof.
  destruct call; simpl.
  - rewrite Txt2Img_outcome.
    exists (Txt2ImageResponse.t Image), _, Txt2ImageResponse.zero.
    split; reflexivity.
  - rewrite Img2Img_outcome.
    exists (Img2ImgResponse.t Image), _, Img2ImgResponse.zero.
    split; reflexivity.
  - rewrite ExtraSingleImg_outcome.
    exists (ExtraSingleImgResponse.t Image), _, ExtraSingleImgResponse.zero.
    split; reflexivity.
  - exists ProgressResponse.t, _, ProgressResponse.zero. split; reflexivity.
  - exists OptionsResponse.t, _, OptionsResponse.zero. split; reflexivity.
  - exists (list (option ModelsResponse.t)), _, []. split; reflexivity.
  - exists MemoryResponse.t, _, MemoryResponse.zero. split; reflexivity.
Qed.

(** The run of [doReq] behind a call of an endpoint operation. *)
Lemma invoke_run (c : Client) (call : Call) (r : Result unit)
    (tr : list Event) :
  invoke c call = (r, tr) ->
  exists (R : Type) (dec : Unmarshaler R) (result : R) (r' : Result R),
    DoReqRun c (pathOf call) (methodOf call) (bodyOf call) http.StatusOK
      result r' tr
    /\ r = errorOf r'
    /\ forall data, unmarshalError call data = decodeError data result.
Proof.
  intros Hinv.
  destruct (invoke_doReq c call) as (R & dec & result & Heq & Hdec).
  rewrite Heq in Hinv. unfold outcome in Hinv. injection Hinv as <- <-.
  exists R, dec, result. eexists. split; [apply doReq_run|]. split; auto.
Qed.

End Endpoints.

(** ** The claims about requests and responses *)



Section Claims.

Context {std : Stdlib}.

Lemma requestOf_URL (c : Client) (path method : string) (b : option bytes) :
  http.Request.URL (requestOf c path method b)
  = baseURL c ++ "/sdapi/v1" ++ path.
Proof.
  unfold requestOf.
  destruct (negb (len (username c) =? 0) && negb (len (password c) =? 0));
    reflexivity.
Qed.

Lemma requestOf_Body (c : Client) (path method : string) (b : option bytes) :
  http.Request.Body (requestOf c path method b) = b.
Proof.
  unfold requestOf.
  destruct (negb (len (username c) =? 0) && negb (len (password c) =? 0));
    reflexivity.
Qed.

(** With both credentials set, the request carries them. *)
Lemma requestOf_credentials (c : Client) (path method : string)
    (b : option bytes) :
  username c <> "" -> password c <> "" ->
  http.Request.Header (requestOf c path method b) !! "Authorization"
  = Some [http.Request.basicAuth (username c) (password c)].
Proof.
  intros Hu Hp. unfold requestOf.
  destruct (len (username c) =? 0) eqn:Hlu; [apply len_zero in Hlu; contradiction|].
  destruct (len (password c) =? 0) eqn:Hlp; [apply len_zero in Hlp; contradiction|].
  simpl. apply lookup_insert_eq.
Qed.

(** With either of them empty, it carries none. *)
Lemma requestOf_no_credentials (c : Client) (path method : string)
    (b : option bytes) :
  username c = "" \/ password c = "" ->
  http.Request.Header (requestOf c path method b) !! "Authorization" = None.
Proof.
  intros Hempty. unfold requestOf.
  assert (Hcond : negb (len (username c) =? 0) && negb (len (password c) =? 0)
                  = false).
  { destruct Hempty as [-> | ->]; simpl; [reflexivity|].
    apply andb_false_r. }
  rewrite Hcond. simpl. rewrite lookup_insert_ne by discriminate.
  apply lookup_empty.
Qed.

(** [doReq] attaches the credentials of the client it is given: the
    requests of a client that holds a username and a password carry
    them. *)
Lemma doReq_attaches_credentials (c : Client) (call : Call)
    (req : http.Request.t) (answer : GoError + http.Response.t) :
  username c <> "" -> password c <> "" ->
  In (EvDo req answer) (snd (invoke c call)) ->
  http.Request.Header req !! "Authorization"
  = Some [http.Request.basicAuth (username c) (password c)].
Proof.
  intros Hu Hp Hin.
  destruct (invoke_run c call _ _ (surjective_pairing _))
    as (R & dec & result & r' & Hrun & _ & _).
  destruct (doReq_request _ _ _ _ _ _ _ _ _ _ Hrun Hin) as (b & _ & ->).
  apply requestOf_credentials; assumption.
Qed.

(** A client built by [NewClient] holds no credentials, so none of its
    requests carries any, whatever username and password were given. *)
Lemma NewClient_requests_carry_no_credentials (url u p : string)
    (httpCli : option http.Client) (call : Call) (req : http.Request.t)
    (answer : GoError + http.Response.t) :
  In (EvDo req answer) (snd (invoke (fst (NewClient url u p httpCli)) call)) ->
  http.Request.Header req !! "Authorization" = None.
Proof.
  intros Hin.
  destruct (invoke_run (fst (NewClient url u p httpCli)) call _ _
              (surjective_pairing _))
    as (R & dec & result & r' & Hrun & _ & _).
  destruct (doReq_request _ _ _ _ _ _ _ _ _ _ Hrun Hin) as (b & _ & ->).
  apply requestOf_no_credentials. left. reflexivity.
Qed.


(** C5. Whenever the response to an endpoint operation has status 200
    and a body (read to the end) that the JSON decoder rejects at the
    response type of the operation, the operation returns the decode
    error, an ordinary error value that wraps the decoder's error and
    carries the response; it does not panic. *)
Theorem malformed_body_is_decode_error (c : Client) (call : Call)
    (r : Result unit) (tr : list Event) (req : http.Request.t)
    (resp : http.Response.t) (data : bytes) (err : GoError) :
  invoke c call = (r, tr) ->
  In (EvDo req (inr resp)) tr ->
  http.Response.Body resp = (data, None) ->
  http.Response.StatusCode resp = http.StatusOK ->
  unmarshalError call data = Some err ->
  (exists e : Error,
     r = Failed e
     /\ Error_Unwrap e = Some err
     /\ Response e = Some resp
     /\ Msg e = "failed to parse response")
  /\ forall msg, r <> Panic msg.
Proof.
  intros Hinv Hin Hbody Hst Hdec.
  destruct (invoke_run c call r tr Hinv)
    as (R & dec & result & r' & Hrun & -> & Herr).
  rewrite Herr in Hdec. unfold decodeError in Hdec.
  destruct (json_Unmarshal data result) as [e|v] eqn:Hun; [|discriminate].
  injection Hdec as ->.
  rewrite (doReq_decode_error _ _ _ _ _ _ _ _ _ _ _ _ Hrun Hin Hbody Hst Hun).
  split; [|discriminate].
  eexists. repeat split.
Qed.

(** An endpoint operation panics on a nil HTTP client only. *)
Lemma invoke_panic (c : Client) (call : Call) (msg : string) :
  fst (invoke c call) = Panic msg -> cli c = None.
Proof.
  intros Hp.
  destruct (invoke_run c call _ _ (surjective_pairing _))
    as (R & dec & result & r' & Hrun & Hr & _).
  rewrite Hr in Hp. destruct r' as [v|e|m]; try discriminate.
  eapply doReq_panic; eauto.
Qed.

(** C7. Every request that [doReq] sends goes to the URL made of the base
    URL of the client, the prefix [/sdapi/v1] and the path, and so does
    the request of every endpoint operation with the path of the
    operation; [NewClient] takes [http://127.0.0.1:7860] for an empty
    base URL and keeps a non-empty one as it is. *)
Theorem request_URL_and_default_base :
  (forall (R : Type) (dec : Unmarshaler R) (c : Client) (path method : string)
          (body : option GoValue) (expected : Z) (result : R)
          (req : http.Request.t) (answer : GoError + http.Response.t),
      In (EvDo req answer)
         (snd (run (doReq c path method body expected result))) ->
      http.Request.URL req = baseURL c ++ "/sdapi/v1" ++ path)
  /\ (forall (c : Client) (call : Call) (req : http.Request.t)
             (answer : GoError + http.Response.t),
        In (EvDo req answer) (snd (invoke c call)) ->
        http.Request.URL req = baseURL c ++ "/sdapi/v1" ++ pathOf call)
  /\ (forall (username password : string) (httpCli : option http.Client),
        baseURL (fst (NewClient "" username password httpCli))
        = "http://127.0.0.1:7860")
  /\ (forall (url username password : string) (httpCli : option http.Client),
        url <> "" ->
        baseURL (fst (NewClient url username password httpCli)) = url).
Proof.
  split; [|split; [|split]].
  - intros R dec c path method body expected result req answer Hin.
    destruct (doReq_request _ _ _ _ _ _ _ _ _ _ (doReq_run _ _ _ _ _ _) Hin)
      as (b & _ & ->).
    apply requestOf_URL.
  - intros c call req answer Hin.
    destruct (invoke_run c call _ _ (surjective_pairing _))
      as (R & dec & result & r' & Hrun & _ & _).
    destruct (doReq_request _ _ _ _ _ _ _ _ _ _ Hrun Hin) as (b & _ & ->).
    apply requestOf_URL.
  - apply NewClient_baseURL_default.
  - apply NewClient_baseURL_kept.
Qed.

(** C8. The data-URL conversion of an image is the prefix
    [data:image/png;base64,] followed by the bare base64 conversion of
    the same image. *)
Theorem Img2Base64_is_prefixed_Img2RawBase64 (img : Image) :
  Img2Base64 img = "data:image/png;base64," ++ Img2RawBase64 img.
Proof. reflexivity. Qed.

End Claims.

(** ** The claims about the enrichment of image responses *)

Section Enrichment.

Context {std : Stdlib}.

Lemma decodeRaw_Some (raw : string) (data : bytes) :
  base64.DecodeString raw = inr data -> decodeRaw raw = Some data.
Proof. intros H. unfold decodeRaw. rewrite H. reflexivity. Qed.

Lemma decodePNG_None (data : bytes) (e : GoError) :
  png_Decode data = inl e -> decodePNG data = None.
Proof. intros H. unfold decodePNG. rewrite H. reflexivity. Qed.

(** What the loop leaves in the two derived lists, by the image strings
    alone. *)
Lemma derived_lists (images : list string) :
  (length (omap decodeImage images) <= length (omap decodeRaw images))%nat
  /\ (length (omap decodeRaw images) <= length images)%nat
  /\ forall raw data e,
       In raw images ->
       base64.DecodeString raw = inr data ->
       png_Decode data = inl e ->
       In data (omap decodeRaw images)
       /\ (length (omap decodeImage images)
           < length (omap decodeRaw images))%nat.
Proof.
  rewrite omap_decodeImage. split; [apply omap_length_le|].
  split; [apply omap_length_le|].
  intros raw data e Hin Hb64 Hpng.
  assert (Hdata : In data (omap decodeRaw images)).
  { apply list_elem_of_In, list_elem_of_omap. exists raw.
    split; [apply list_elem_of_In, Hin|apply decodeRaw_Some, Hb64]. }
  split; [exact Hdata|].
  eapply omap_length_lt; [exact Hdata|eapply decodePNG_None, Hpng].
Qed.

(** C4. When the txt2img or img2img endpoint returns a list of image
    strings, the operation returns without error, whatever the number of
    entries that fail base64 or PNG decoding: the decoded images are
    those of the entries that pass both decodings, in order, the other
    entries being left out, so they are never more than the entries. *)
Theorem undecodable_images_are_skipped (c : Client) :
  (forall (opt : Txt2ImageOption.t) (res : Txt2ImageResponse.t Image)
          (tr : list Event),
      run (doReq c "/txt2img" http.MethodPost
             (addressOf (Txt2ImageOption.fields opt)) http.StatusOK
             (@Txt2ImageResponse.zero Image)) = (Ok res, tr) ->
      exists res' : Txt2ImageResponse.t Image,
        run (Txt2Img c opt) = (Ok res', tr)
        /\ Txt2ImageResponse.Images res' = Txt2ImageResponse.Images res
        /\ Txt2ImageResponse.ParsedImages res'
           = omap decodeImage (Txt2ImageResponse.Images res)
        /\ (length (Txt2ImageResponse.ParsedImages res')
            <= length (Txt2ImageResponse.Images res))%nat)
  /\ (forall (opt : Img2ImgOption.t) (res : Img2ImgResponse.t Image)
             (tr : list Event),
        run (doReq c "/img2img" http.MethodPost
               (addressOf (Img2ImgOption.fields opt)) http.StatusOK
               (@Img2ImgResponse.zero Image)) = (Ok res, tr) ->
        exists res' : Img2ImgResponse.t Image,
          run (Img2Img c opt) = (Ok res', tr)
          /\ Img2ImgResponse.Images res' = Img2ImgResponse.Images res
          /\ Img2ImgResponse.ParsedImages res'
             = omap decodeImage (Img2ImgResponse.Images res)
          /\ (length (Img2ImgResponse.ParsedImages res')
              <= length (Img2ImgResponse.Images res))%nat).
Proof.
  split; intros opt res tr Hreq.
  - rewrite Txt2Img_run, Hreq. eexists. split; [reflexivity|]. simpl.
    repeat split. apply omap_length_le.
  - rewrite Img2Img_run, Hreq. eexists. split; [reflexivity|]. simpl.
    repeat split. apply omap_length_le.
Qed.

(** C9. In every response that [Txt2Img] or [Img2Img] returns, the raw
    images are the entries that are base64, decoded, and the parsed
    images are the raw images that are PNG files, decoded; hence there
    are no more parsed images than raw images and no more raw images
    than entries, and an entry that is base64 but no PNG file is among
    the raw images and makes the parsed images strictly fewer. *)
Theorem parsed_raw_images_lengths (c : Client) :
  (forall (opt : Txt2ImageOption.t) (res : Txt2ImageResponse.t Image)
          (tr : list Event),
      run (Txt2Img c opt) = (Ok res, tr) ->
      Txt2ImageResponse.RawImages res
      = omap decodeRaw (Txt2ImageResponse.Images res)
      /\ Txt2ImageResponse.ParsedImages res
         = omap decodePNG (Txt2ImageResponse.RawImages res)
      /\ (length (Txt2ImageResponse.ParsedImages res)
          <= length (Txt2ImageResponse.RawImages res))%nat
      /\ (length (Txt2ImageResponse.RawImages res)
          <= length (Txt2ImageResponse.Images res))%nat
      /\ forall raw data e,
           In raw (Txt2ImageResponse.Images res) ->
           base64.DecodeString raw = inr data ->
           png_Decode data = inl e ->
           In data (Txt2ImageResponse.RawImages res)
           /\ (length (Txt2ImageResponse.ParsedImages res)
               < length (Txt2ImageResponse.RawImages res))%nat)
  /\ (forall (opt : Img2ImgOption.t) (res : Img2ImgResponse.t Image)
             (tr : list Event),
        run (Img2Img c opt) = (Ok res, tr) ->
        Img2ImgResponse.RawImages res
        = omap decodeRaw (Img2ImgResponse.Images res)
        /\ Img2ImgResponse.ParsedImages res
           = omap decodePNG (Img2ImgResponse.RawImages res)
        /\ (length (Img2ImgResponse.ParsedImages res)
            <= length (Img2ImgResponse.RawImages res))%nat
        /\ (length (Img2ImgResponse.RawImages res)
            <= length (Img2ImgResponse.Images res))%nat
        /\ forall raw data e,
             In raw (Img2ImgResponse.Images res) ->
             base64.DecodeString raw = inr data ->
             png_Decode data = inl e ->
             In data (Img2ImgResponse.RawImages res)
             /\ (length (Img2ImgResponse.ParsedImages res)
                 < length (Img2ImgResponse.RawImages res))%nat).
Proof.
  split; intros opt res tr Hrun.
  - rewrite Txt2Img_run in Hrun.
    destruct (run (doReq _ _ _ _ _ _)) as [[res0|e|msg] tr0];
      try discriminate.
    injection Hrun as <- <-. simpl.
    destruct (derived_lists (Txt2ImageResponse.Images res0))
      as (Hle1 & Hle2 & Hlt).
    split; [reflexivity|]. split; [apply omap_decodeImage|]. auto.
  - rewrite Img2Img_run in Hrun.
    destruct (run (doReq _ _ _ _ _ _)) as [[res0|e|msg] tr0];
      try discriminate.
    injection Hrun as <- <-. simpl.
    destruct (derived_lists (Img2ImgResponse.Images res0))
      as (Hle1 & Hle2 & Hlt).
    split; [reflexivity|]. split; [apply omap_decodeImage|]. auto.
Qed.

(** ** The claim about request bodies *)

(** C6. A request struct with every field at its zero value encodes to
    the JSON object without members, and the body written for it is the
    text of the empty object (followed by the newline the encoder
    adds): no optional key is present. This holds for the three request
    structs and for the options struct. *)
Theorem zero_options_encode_to_empty_object :
  (marshal (VStruct (Txt2ImageOption.fields Txt2ImageOption.zero))
   = inr (JObject [])
   /\ marshal (VStruct (Img2ImgOption.fields Img2ImgOption.zero))
      = inr (JObject [])
   /\ marshal (VStruct (ExtraSingleImgOption.fields ExtraSingleImgOption.zero))
      = inr (JObject [])
   /\ marshal (VStruct (OptionsResponse.fields OptionsResponse.zero))
      = inr (JObject []))
  /\ (encodeBody (addressOf (Txt2ImageOption.fields Txt2ImageOption.zero))
      = inr (Some (bytes_of_string ("{}" ++ newline)))
      /\ encodeBody (addressOf (Img2ImgOption.fields Img2ImgOption.zero))
         = inr (Some (bytes_of_string ("{}" ++ newline)))
      /\ encodeBody
           (addressOf (ExtraSingleImgOption.fields ExtraSingleImgOption.zero))
         = inr (Some (bytes_of_string ("{}" ++ newline)))
      /\ encodeBody (addressOf (OptionsResponse.fields OptionsResponse.zero))
         = inr (Some (bytes_of_string ("{}" ++ newline)))).
Proof. repeat split; vm_compute; reflexivity. Qed.

(** The same on the wire: the request of [Txt2Img] on the zero options
    has the empty object for a body. *)
Lemma zero_options_request_body (c : Client) (req : http.Request.t)
    (answer : GoError + http.Response.t) :
  In (EvDo req answer) (snd (invoke c (CallTxt2Img Txt2ImageOption.zero))) ->
  http.Request.Body req = Some (bytes_of_string ("{}" ++ newline)).
Proof.
  intros Hin.
  destruct (invoke_run c (CallTxt2Img Txt2ImageOption.zero) _ _
              (surjective_pairing _))
    as (R & dec & result & r' & Hrun & _ & _).
  destruct (doReq_request _ _ _ _ _ _ _ _ _ _ Hrun Hin) as (b & Hb & ->).
  rewrite requestOf_Body.
  assert (Hz : encodeBody (bodyOf (CallTxt2Img Txt2ImageOption.zero))
               = inr (Some (bytes_of_string ("{}" ++ newline))))
    by (vm_compute; reflexivity).
  congruence.
Qed.

(** A field that is set is not omitted. *)
Example prompt_is_encoded :
  marshal (VStruct [("prompt", true, VString "a cat");
                    ("steps", true, VInt 0);
                    ("width", true, VInt 512)])
  = inr (JObject [("prompt", JString "a cat"); ("width", JNumber "512")]).
Proof. reflexivity. Qed.

End Enrichment.

(** ** The claim about credentials *)

(** C1, on the code as it is. A client built by [NewClient] with the
    username [alice] and the password [secret] holds neither, and the
    request it sends carries no [Authorization] header, where the claim
    asks for the basic-auth header of that pair. *)
Theorem NewClient_drops_credentials :
  let c := fst (NewClient "http://sd.local:7860" "alice" "secret"
                  (Some (Fixture.server 200 "{images}"))) in
  username c = "" /\ password c = ""
  /\ map (fun req => http.Request.Header req !! "Authorization")
       (requests (snd (invoke (std := Fixture.stdlib) c CallGetMemory)))
     = [None]
  /\ http.Request.basicAuth "alice" "secret" = "Basic YWxpY2U6c2VjcmV0".
Proof. vm_compute. repeat split; reflexivity. Qed.

(** The same request from a client that does hold the pair, as [doReq]
    reads it from the struct. *)
Example credentials_are_attached :
  let c := mkClient (Some (Fixture.server 200 "{images}"))
             "http://sd.local:7860" "alice" "secret" in
  map (fun req => http.Request.Header req !! "Authorization")
    (requests (snd (invoke (std := Fixture.stdlib) c CallGetMemory)))
  = [Some ["Basic YWxpY2U6c2VjcmV0"]].
Proof. vm_compute. reflexivity. Qed.

(** ** The claims at the fixture *)


(** C5 at the fixture: a server that answers 200 with a body that is no
    JSON. *)
Lemma malformed_body_witness :
  exists e : Error,
    fst (invoke (std := Fixture.stdlib) (Fixture.client 200 "boom")
           CallGetMemory) = Failed e
    /\ Error_Unwrap e = Some Fixture.syntaxError
    /\ Msg e = "failed to parse response".
Proof.
  pose (c := Fixture.client 200 "boom").
  pose (resp := http.Response.mk 200 (bytes_of_string "boom", None)).
  pose (req := requestOf c "/memory" "GET" None).
  assert (Hin : In (EvDo req (inr resp))
                  (snd (invoke (std := Fixture.stdlib) c CallGetMemory))).
  { vm_compute. right. left. reflexivity. }
  destruct (malformed_body_is_decode_error (std := Fixture.stdlib)
              c CallGetMemory _ _ req resp (bytes_of_string "boom")
              Fixture.syntaxError
              (surjective_pairing _) Hin eq_refl eq_refl eq_refl)
    as ((e & He & Hcause & _ & Hmsg) & _).
  exists e. repeat split; assumption.
Defined.

(** C7 at the fixture: the request of [GetMemory] from a client on the
    default base URL, and a base URL that is kept. *)
Lemma request_URL_witness :
  http.Request.URL
    (requestOf (Fixture.client 200 "{images}") "/memory" "GET" None)
  = "http://127.0.0.1:7860/sdapi/v1/memory"
  /\ baseURL (fst (NewClient "http://sd.local:7860" "" "" None))
     = "http://sd.local:7860".
Proof.
  destruct (request_URL_and_default_base (std := Fixture.stdlib))
    as (_ & Hcall & _ & Hkept).
  split.
  - apply (Hcall (Fixture.client 200 "{images}") CallGetMemory _
             (inr (http.Response.mk 200 (bytes_of_string "{images}", None)))).
    vm_compute. right. left. reflexivity.
  - apply Hkept. discriminate.
Defined.

(** C4 at the fixture: four entries, one of which passes both
    decodings. *)
Lemma undecodable_images_witness :
  exists res : Txt2ImageResponse.t (Image (Stdlib := Fixture.stdlib)),
    fst (run (Txt2Img (std := Fixture.stdlib) (Fixture.client 200 "{images}")
                Txt2ImageOption.zero)) = Ok res
    /\ Txt2ImageResponse.Images res = Fixture.images
    /\ Txt2ImageResponse.ParsedImages res = [Fixture.pngFile].
Proof.
  pose (c := Fixture.client 200 "{images}").
  destruct (undecodable_images_are_skipped (std := Fixture.stdlib) c)
    as (Htxt & _).
  destruct (Htxt Txt2ImageOption.zero
              (Txt2ImageResponse.mk Fixture.images None "x" [] [])
              (snd (run (doReq (std := Fixture.stdlib) c "/txt2img"
                           http.MethodPost
                           (addressOf (Txt2ImageOption.fields
                                         Txt2ImageOption.zero))
                           http.StatusOK
                           (@Txt2ImageResponse.zero
                              (Image (Stdlib := Fixture.stdlib)))))))
    as (res & Hrun & Himages & Hparsed & _).
  { vm_compute. reflexivity. }
  exists res. split; [|split].
  - fold c. rewrite Hrun. reflexivity.
  - exact Himages.
  - rewrite Hparsed. vm_compute. reflexivity.
Defined.

(** C9 at the fixture: the entry that is base64 but no PNG file is a raw
    image and not a parsed one. *)
Lemma parsed_raw_images_witness :
  let res := Txt2ImageResponse.mk (Img := Image (Stdlib := Fixture.stdlib))
               Fixture.images None "x"
               [Fixture.pngFile] [Fixture.pngFile; Fixture.textFile] in
  fst (run (Txt2Img (std := Fixture.stdlib) (Fixture.client 200 "{images}")
              Txt2ImageOption.zero)) = Ok res
  /\ In Fixture.textFile (Txt2ImageResponse.RawImages res)
  /\ (length (Txt2ImageResponse.ParsedImages res)
      < length (Txt2ImageResponse.RawImages res))%nat.
Proof.
  intros res.
  pose (c := Fixture.client 200 "{images}").
  assert (Hrun : run (Txt2Img (std := Fixture.stdlib) c Txt2ImageOption.zero)
                 = (Ok res, snd (run (Txt2Img (std := Fixture.stdlib) c
                                        Txt2ImageOption.zero)))).
  { vm_compute. reflexivity. }
  destruct (parsed_raw_images_lengths (std := Fixture.stdlib) c)
    as (Htxt & _).
  destruct (Htxt Txt2ImageOption.zero res _ Hrun) as (_ & _ & _ & _ & Hentry).
  split.
  - fold c. rewrite Hrun. reflexivity.
  - apply (Hentry (base64.EncodeToString Fixture.textFile) Fixture.textFile
             (ErrorString "png: invalid format: not a PNG file")).
    + vm_compute. right. right. left. reflexivity.
    + vm_compute. reflexivity.
    + vm_compute. reflexivity.
Defined.

(** * Further properties of the request pipeline *)

Section Pipeline.

Context {std : Stdlib}.

Lemma requests_app (tr1 tr2 : list Event) :
  requests (tr1 ++ tr2) = (requests tr1 ++ requests tr2)%list.
Proof.
  induction tr1 as [|ev tr1 IH]; [reflexivity|].
  destruct ev; simpl; rewrite IH; reflexivity.
Qed.

Lemma requests_encodeEvents (body : option GoValue) :
  requests (encodeEvents body) = [].
Proof. destruct body; reflexivity. Qed.

Lemma encodeBody_error_events (body : option GoValue) (err : GoError) :
  encodeBody body = inl err -> encodeEvents body = [EvEncode].
Proof. destruct body; [reflexivity|discriminate]. Qed.

(** Splits a membership in the trace of a run into the events it can
    be, and closes the cases that are no match. *)
Local Ltac member Hx :=
  first
    [ apply in_app_or in Hx; destruct Hx as [Hx|Hx];
      [ apply encodeEvents_no_answer in Hx; discriminate Hx
      | simpl in Hx;
        repeat match type of Hx with
               | _ \/ _ => destruct Hx as [Hx|Hx]
               | False => destruct Hx
               end; try discriminate Hx ]
    | apply encodeEvents_no_answer in Hx; discriminate Hx ].

(** The run of [doReq] behind a call, with the error the caller sees. *)
Local Ltac the_run Hinv Hrun :=
  let R := fresh "R" in
  let dec := fresh "dec" in
  let result := fresh "result" in
  let r' := fresh "r'" in
  let Hdec := fresh "Hdec" in
  apply invoke_run in Hinv;
  destruct Hinv as (R & dec & result & r' & Hrun & -> & Hdec).

(** X1. When the request body cannot be encoded, the operation returns the
    encode error with the encoder's error as its cause, and nothing else
    happens: no request is built and none is sent. *)
Theorem encode_error_sends_nothing (c : Client) (call : Call)
    (r : Result unit) (tr : list Event) (err : GoError) :
  invoke c call = (r, tr) ->
  encodeBody (bodyOf call) = inl err ->
  r = Failed (wrapError (Some err) None "failed to encode body")
  /\ tr = [EvEncode].
Proof.
  intros Hinv Henc. the_run Hinv Hrun.
  destruct Hrun; try congruence.
  split; [simpl; congruence|].
  eapply encodeBody_error_events; eauto.
Qed.

(** X3. When [http.NewRequestWithContext] rejects the method or the URL,
    the operation returns the construction error with that cause and no
    response, and no request is sent. *)
Theorem construction_error_sends_nothing (c : Client) (call : Call)
    (r : Result unit) (tr : list Event) (b : option bytes) (err : GoError) :
  invoke c call = (r, tr) ->
  encodeBody (bodyOf call) = inr b ->
  http_NewRequest_error (methodOf call)
    (baseURL c ++ "/sdapi/v1" ++ pathOf call) = Some err ->
  r = Failed (wrapError (Some err) None "failed to initialize request")
  /\ requests tr = [].
Proof.
  intros Hinv Henc Hreq. the_run Hinv Hrun.
  destruct Hrun; try congruence.
  split; [simpl; congruence|].
  rewrite requests_app, requests_encodeEvents. reflexivity.
Qed.

(** X4. When the HTTP client answers a request with an error, the operation
    returns the transport error with that cause and no response; no body
    is read, closed or decoded. *)
Theorem transport_error_is_returned (c : Client) (call : Call)
    (r : Result unit) (tr : list Event) (req : http.Request.t)
    (err : GoError) :
  invoke c call = (r, tr) ->
  In (EvDo req (inl err)) tr ->
  r = Failed (wrapError (Some err) None "failed to do request")
  /\ ~ In EvReadAll tr
  /\ ~ In EvClose tr
  /\ forall d, ~ In (EvUnmarshal d) tr.
Proof.
  intros Hinv Hin. the_run Hinv Hrun.
  destruct Hrun; member Hin; injection Hin as <- <-.
  split; [reflexivity|].
  repeat split; [intros Hx|intros Hx|intros d Hx]; member Hx.
Qed.

(** X5. When the body of the response cannot be read to the end, the
    operation returns the read error with that cause and the response
    attached, whatever the status code; the bytes read so far are
    dropped and the decoder is not called. *)
Theorem read_error_is_returned (c : Client) (call : Call)
    (r : Result unit) (tr : list Event) (req : http.Request.t)
    (resp : http.Response.t) (data : bytes) (err : GoError) :
  invoke c call = (r, tr) ->
  In (EvDo req (inr resp)) tr ->
  http.Response.Body resp = (data, Some err) ->
  r = Failed (wrapError (Some err) (Some resp) "failed to read response body")
  /\ forall d, ~ In (EvUnmarshal d) tr.
Proof.
  intros Hinv Hin Hbody. the_run Hinv Hrun.
  destruct Hrun; member Hin; injection Hin as <- <-; try congruence.
  split; [simpl; congruence|].
  intros d Hx; member Hx.
Qed.

(** X6. The body of a response is closed exactly once, as the last step of
    the call, on every way out; and nothing is closed when no response
    came back. *)
Theorem response_body_is_closed (c : Client) (call : Call)
    (r : Result unit) (tr : list Event) :
  invoke c call = (r, tr) ->
  ((exists req resp, In (EvDo req (inr resp)) tr) ->
   exists tr', tr = (tr' ++ [EvClose])%list /\ ~ In EvClose tr')
  /\ ((forall req resp, ~ In (EvDo req (inr resp)) tr) -> ~ In EvClose tr).
Proof.
  intros Hinv. the_run Hinv Hrun.
  destruct Hrun; split.
  all: try (intros (req & resp' & Hin); member Hin; fail).
  all: try (intros _ Hx; member Hx; fail).
  all: try (intros Hno; exfalso; eapply Hno; apply in_or_app; right;
            simpl; eauto; fail).
  all: intros _;
    match goal with
    | |- exists tr', (?pre ++ [?a; ?b; ?c; EvClose])%list = _ /\ _ =>
        exists (pre ++ [a; b; c])%list
    | |- exists tr', (?pre ++ [?a; ?b; ?c; ?d; EvClose])%list = _ /\ _ =>
        exists (pre ++ [a; b; c; d])%list
    end;
    (split; [rewrite <- app_assoc; reflexivity|intros Hx; member Hx]).
Qed.

(** X7. An operation sends at most one request, and none exactly when the
    body cannot be encoded, the request cannot be built, or the HTTP
    client is nil. *)
Theorem at_most_one_request (c : Client) (call : Call)
    (r : Result unit) (tr : list Event) :
  invoke c call = (r, tr) ->
  (length (requests tr) <= 1)%nat
  /\ (requests tr = [] <->
      (exists err, encodeBody (bodyOf call) = inl err)
      \/ (exists err,
            http_NewRequest_error (methodOf call)
              (baseURL c ++ "/sdapi/v1" ++ pathOf call) = Some err)
      \/ cli c = None).
Proof.
  intros Hinv. the_run Hinv Hrun.
  destruct Hrun;
    rewrite ?requests_app, ?requests_encodeEvents; simpl;
    (split; [lia|]); split; intros Hx;
    try discriminate Hx; eauto;
    destruct Hx as [(err' & Hx)|[(err' & Hx)|Hx]]; congruence.
Qed.

(** X8. The request of an operation has the method of the operation ([POST]
    for the three image operations, [GET] for the others) and, for a
    body, the JSON encoding of the options (none for a [GET]). *)
Theorem request_method_and_body (c : Client) (call : Call)
    (req : http.Request.t) (answer : GoError + http.Response.t) :
  In (EvDo req answer) (snd (invoke c call)) ->
  http.Request.Method req = methodOf call
  /\ encodeBody (bodyOf call) = inr (http.Request.Body req).
Proof.
  intros Hin.
  destruct (invoke_run c call _ _ (surjective_pairing _))
    as (R & dec & result & r' & Hrun & _ & _).
  destruct (doReq_request _ _ _ _ _ _ _ _ _ _ Hrun Hin) as (b & Hb & ->).
  split.
  - unfold requestOf.
    destruct (negb (len (username c) =? 0) && negb (len (password c) =? 0));
      destruct call; reflexivity.
  - rewrite requestOf_Body. exact Hb.
Qed.

(** X9. The headers of a request are the JSON content type and, when the
    client holds both a username and a password, the basic-auth header
    of that pair; there is no other header. *)
Theorem request_headers (c : Client) (call : Call)
    (req : http.Request.t) (answer : GoError + http.Response.t) :
  In (EvDo req answer) (snd (invoke c call)) ->
  http.Request.Header req
  = if negb (len (username c) =? 0) && negb (len (password c) =? 0)
    then <["Authorization" :=
             [http.Request.basicAuth (username c) (password c)]]>
           (<["Content-Type" := ["application/json"]]> ∅)
    else <["Content-Type" := ["application/json"]]> ∅.
Proof.
  intros Hin.
  destruct (invoke_run c call _ _ (surjective_pairing _))
    as (R & dec & result & r' & Hrun & _ & _).
  destruct (doReq_request _ _ _ _ _ _ _ _ _ _ Hrun Hin) as (b & Hb & ->).
  unfold requestOf.
  destruct (negb (len (username c) =? 0) && negb (len (password c) =? 0));
    reflexivity.
Qed.

(** X10. An operation returns a nil error exactly when a response came back
    with status 200, its body read to the end and the decoder accepted
    it: the enrichment of the image operations never turns a decoded
    response into an error. *)
Theorem success_iff (c : Client) (call : Call)
    (r : Result unit) (tr : list Event) :
  invoke c call = (r, tr) ->
  (r = Ok tt <->
   exists req resp data,
     In (EvDo req (inr resp)) tr
     /\ http.Response.Body resp = (data, None)
     /\ http.Response.StatusCode resp = http.StatusOK
     /\ unmarshalError call data = None).
Proof.
  intros Hinv. the_run Hinv Hrun. split.
  - intros Hok. destruct Hrun; simpl in Hok; try discriminate Hok.
    exists (requestOf c (pathOf call) (methodOf call) b), resp, data.
    split; [apply in_or_app; right; simpl; auto|].
    repeat split; try assumption.
    rewrite Hdec. unfold decodeError.
    match goal with
    | Hj : json_Unmarshal _ _ = _ |- _ => rewrite Hj
    end. reflexivity.
  - intros (req & resp' & data' & Hin & Hbody & Hst & Hun).
    rewrite Hdec in Hun. unfold decodeError in Hun.
    destruct Hrun; member Hin; injection Hin as <- <-; simpl;
      try congruence.
    assert (data' = data) by congruence. subst data'.
    match goal with
    | Hj : json_Unmarshal _ _ = _ |- _ => rewrite Hj in Hun
    end. discriminate Hun.
Qed.

(** X11. The decoder only ever sees the whole body of a response with status
    200. *)
Theorem decoder_sees_expected_status_only (c : Client) (call : Call)
    (r : Result unit) (tr : list Event) (d : bytes) :
  invoke c call = (r, tr) ->
  In (EvUnmarshal d) tr ->
  exists req resp,
    In (EvDo req (inr resp)) tr
    /\ http.Response.StatusCode resp = http.StatusOK
    /\ http.Response.Body resp = (d, None).
Proof.
  intros Hinv Hin. the_run Hinv Hrun.
  destruct Hrun; member Hin; injection Hin as <-;
    eexists _, resp; (split; [apply in_or_app; right; simpl; eauto|]);
    split; assumption.
Qed.

(** X12. An error carries a response exactly when one came back: the encode,
    construction and transport errors carry none, the read, status and
    decode errors carry the response they are about. *)
Theorem error_response_iff (c : Client) (call : Call)
    (e : Error) (tr : list Event) (resp : http.Response.t) :
  invoke c call = (Failed e, tr) ->
  (Response e = Some resp <-> exists req, In (EvDo req (inr resp)) tr).
Proof.
  intros Hinv.
  apply invoke_run in Hinv.
  destruct Hinv as (R & dec & result & r' & Hrun & Hr & Hdec).
  destruct Hrun; simpl in Hr; try discriminate Hr;
    injection Hr as ->; simpl; split; intros Hx;
    try discriminate Hx;
    try (destruct Hx as (req & Hin); member Hin; fail);
    try (injection Hx as <-; eexists; apply in_or_app; right; simpl; eauto; fail);
    destruct Hx as (req & Hin); member Hin; injection Hin as <- <-;
    reflexivity.
Qed.

(** X13. The error of an operation unwraps to nil for the status error only:
    every other error wraps the error of the library call that failed. *)
Theorem unwrap_nil_iff_status_error (c : Client) (call : Call)
    (e : Error) (tr : list Event) :
  invoke c call = (Failed e, tr) ->
  (Error_Unwrap e = None <->
   exists resp data,
     Response e = Some resp
     /\ http.Response.Body resp = (data, None)
     /\ http.Response.StatusCode resp <> http.StatusOK
     /\ Msg e = "got bad status " ++ fmt_d (http.Response.StatusCode resp) ++
                ", body: " ++ string_of_bytes data).
Proof.
  intros Hinv.
  apply invoke_run in Hinv.
  destruct Hinv as (R & dec & result & r' & Hrun & Hr & Hdec).
  destruct Hrun; simpl in Hr; try discriminate Hr;
    injection Hr as ->; simpl; split; intros Hx;
    try discriminate Hx;
    try (destruct Hx as (resp' & data' & Hresp & Hbody & Hst & Hmsg);
         try discriminate Hresp; injection Hresp as <-; congruence).
  eauto 6.
Qed.

(** X14. An operation panics exactly when the HTTP client is nil and the
    call gets as far as sending: with a non-nil client no operation
    panics, and with a nil one the panic comes before anything is sent,
    unless an encode or construction error comes first. *)
Theorem panic_iff_nil_client (c : Client) (call : Call)
    (r : Result unit) (tr : list Event) :
  invoke c call = (r, tr) ->
  ((exists msg, r = Panic msg) <->
   cli c = None
   /\ (exists b, encodeBody (bodyOf call) = inr b)
   /\ http_NewRequest_error (methodOf call)
        (baseURL c ++ "/sdapi/v1" ++ pathOf call) = None).
Proof.
  intros Hinv. the_run Hinv Hrun.
  destruct Hrun; simpl; split; intros Hx;
    try (destruct Hx as (msg & Hx); discriminate Hx);
    try (destruct Hx as (Hcli & (b' & Henc) & Hreq); congruence);
    eauto.
Qed.

End Pipeline.

(** * Further properties of the image helpers and the enrichment *)

(** ** Base64: decoding undoes encoding *)

Lemma lor_disjoint (hi lo k : Z) :
  0 <= k -> 0 <= lo < 2 ^ k -> Z.lor (hi * 2 ^ k) lo = hi * 2 ^ k + lo.
Proof.
  intros Hk Hlo. symmetry. apply Z.add_nocarry_lor.
  apply Z.bits_inj'. intros n Hn.
  rewrite Z.land_spec, Z.bits_0.
  destruct (Z.lt_ge_cases n k) as [Hlt|Hge].
  - rewrite Z.mul_pow2_bits_low by lia. reflexivity.
  - rewrite <- (Z.mod_small lo (2 ^ k)) by lia.
    rewrite Z.mod_pow2_bits_high by lia. apply andb_false_r.
Qed.

Lemma byteZ_range (b : Byte.byte) : 0 <= base64.byteZ b < 256.
Proof.
  unfold base64.byteZ. pose proof (Byte.to_N_bounded b) as Hb. lia.
Qed.

Lemma byte_of_Z_byteZ (b : Byte.byte) : base64.byte_of_Z (base64.byteZ b) = b.
Proof.
  pose proof (byteZ_range b) as Hb.
  unfold base64.byte_of_Z.
  change 255 with (Z.ones 8). rewrite Z.land_ones by lia.
  rewrite Z.mod_small by (change (2 ^ 8) with 256; lia).
  unfold base64.byteZ. rewrite N2Z.id, Byte.of_to_N. reflexivity.
Qed.

Lemma byte_of_Z_mod (v : Z) (b : Byte.byte) :
  v mod 256 = base64.byteZ b -> base64.byte_of_Z v = b.
Proof.
  intros Hv. rewrite <- (byte_of_Z_byteZ b), <- Hv.
  unfold base64.byte_of_Z. f_equal. f_equal.
  change 255 with (Z.ones 8). rewrite !Z.land_ones by lia.
  change (2 ^ 8) with 256. rewrite Z.mod_mod by lia. reflexivity.
Qed.

(** The alphabet is one to one on the 6-bit values. *)
Lemma decodeMap_encodeChar (v : Z) :
  base64.decodeMap (base64.encodeChar v) = Some (v mod 64).
Proof.
  unfold base64.encodeChar.
  change 63 with (Z.ones 6). rewrite Z.land_ones by lia.
  change (2 ^ 6) with 64.
  pose proof (Z.mod_pos_bound v 64 ltac:(lia)) as Hv.
  rewrite <- (Z2Nat.id (v mod 64)) at 2 by lia.
  assert (Hn : (Z.to_nat (v mod 64) < 64)%nat) by lia.
  revert Hn. generalize (Z.to_nat (v mod 64)). intros n Hn.
  do 64 (destruct n as [|n]; [reflexivity|]). lia.
Qed.

Lemma bytes3_value (x0 x1 x2 : Z) :
  0 <= x0 < 256 -> 0 <= x1 < 256 -> 0 <= x2 < 256 ->
  Z.lor (Z.lor (Z.shiftl x0 16) (Z.shiftl x1 8)) x2
  = x0 * 65536 + x1 * 256 + x2.
Proof.
  intros H0 H1 H2. rewrite !Z.shiftl_mul_pow2 by lia.
  rewrite (lor_disjoint x0 (x1 * 2 ^ 8) 16) by lia.
  replace (x0 * 2 ^ 16 + x1 * 2 ^ 8) with ((x0 * 256 + x1) * 2 ^ 8) by lia.
  rewrite lor_disjoint by lia. lia.
Qed.

Lemma sextets4_value (s0 s1 s2 s3 : Z) :
  0 <= s0 < 64 -> 0 <= s1 < 64 -> 0 <= s2 < 64 -> 0 <= s3 < 64 ->
  Z.lor (Z.lor (Z.shiftl s0 18) (Z.shiftl s1 12)) (Z.lor (Z.shiftl s2 6) s3)
  = s0 * 262144 + s1 * 4096 + s2 * 64 + s3.
Proof.
  intros H0 H1 H2 H3. rewrite !Z.shiftl_mul_pow2 by lia.
  rewrite (lor_disjoint s2 s3 6) by lia.
  rewrite (lor_disjoint s0 (s1 * 2 ^ 12) 18) by lia.
  replace (s0 * 2 ^ 18 + s1 * 2 ^ 12) with ((s0 * 64 + s1) * 2 ^ 12) by lia.
  rewrite lor_disjoint by lia. lia.
Qed.

(** The bytes of a quantum are the bytes its characters were cut from. *)
Lemma quantumBytes_of_value (val : Z) (dlen : nat) :
  0 <= val < 16777216 ->
  base64.quantumBytes
    [Z.shiftr val 18 mod 64; Z.shiftr val 12 mod 64;
     Z.shiftr val 6 mod 64; val mod 64] dlen
  = firstn (dlen - 1)
      [base64.byte_of_Z (Z.shiftr val 16); base64.byte_of_Z (Z.shiftr val 8);
       base64.byte_of_Z val].
Proof.
  intros Hval. unfold base64.quantumBytes. cbn [nth].
  rewrite sextets4_value by (apply Z.mod_pos_bound; lia).
  rewrite !Z.shiftr_div_pow2 by lia.
  change (2 ^ 18) with 262144. change (2 ^ 12) with 4096.
  change (2 ^ 6) with 64.
  replace (val / 262144 mod 64 * 262144 + val / 4096 mod 64 * 4096 +
           val / 64 mod 64 * 64 + val mod 64) with val; [reflexivity|].
  Z.div_mod_to_equations. lia.
Qed.

Lemma decode_push (c : ascii) (v : Z) (rest : string) (si total : Z)
    (d : list Z) (out : bytes) :
  base64.decodeMap c = Some v ->
  (length d < 3)%nat ->
  base64.decode (String c rest) si total d out
  = base64.decode rest (si + 1) total (d ++ [v])%list out.
Proof.
  intros Hc Hd. cbn [base64.decode]. rewrite Hc.
  destruct (length (d ++ [v]) =? 4)%nat eqn:Hlen; [|reflexivity].
  apply Nat.eqb_eq in Hlen. rewrite length_app in Hlen. simpl in Hlen. lia.
Qed.

Lemma decode_flush (c : ascii) (v : Z) (rest : string) (si total : Z)
    (d : list Z) (out : bytes) :
  base64.decodeMap c = Some v ->
  length d = 3%nat ->
  base64.decode (String c rest) si total d out
  = base64.decode rest (si + 1) total []
      (out ++ base64.quantumBytes (d ++ [v]) 4)%list.
Proof.
  intros Hc Hd. cbn [base64.decode]. rewrite Hc.
  destruct (length (d ++ [v]) =? 4)%nat eqn:Hlen; [reflexivity|].
  apply Nat.eqb_neq in Hlen. rewrite length_app in Hlen. simpl in Hlen. lia.
Qed.

Lemma bytes_of_value3 (b0 b1 b2 : Byte.byte) :
  let val := base64.byteZ b0 * 65536 + base64.byteZ b1 * 256
             + base64.byteZ b2 in
  [base64.byte_of_Z (Z.shiftr val 16); base64.byte_of_Z (Z.shiftr val 8);
   base64.byte_of_Z val] = [b0; b1; b2].
Proof.
  intros val.
  pose proof (byteZ_range b0). pose proof (byteZ_range b1).
  pose proof (byteZ_range b2).
  rewrite !Z.shiftr_div_pow2 by lia.
  change (2 ^ 16) with 65536. change (2 ^ 8) with 256.
  repeat f_equal; apply byte_of_Z_mod; subst val;
    Z.div_mod_to_equations; lia.
Qed.

Lemma decode_padding2 (d0 d1 : Z) (si total : Z) (out : bytes) :
  base64.decode (String base64.padChar (String base64.padChar "")) si total
    [d0; d1] out
  = inr (out ++ base64.quantumBytes [d0; d1] 2)%list.
Proof. reflexivity. Qed.

Lemma decode_padding1 (d0 d1 d2 : Z) (si total : Z) (out : bytes) :
  base64.decode (String base64.padChar "") si total [d0; d1; d2] out
  = inr (out ++ base64.quantumBytes [d0; d1; d2] 3)%list.
Proof. reflexivity. Qed.

(** The characters of a group of one, two or three bytes decode to it. *)
Lemma quantum_of_bytes (b0 b1 b2 : Byte.byte) (dlen : nat) :
  let val := base64.byteZ b0 * 65536 + base64.byteZ b1 * 256
             + base64.byteZ b2 in
  base64.quantumBytes
    [Z.shiftr val 18 mod 64; Z.shiftr val 12 mod 64;
     Z.shiftr val 6 mod 64; val mod 64] dlen
  = firstn (dlen - 1) [b0; b1; b2].
Proof.
  intros val.
  pose proof (byteZ_range b0). pose proof (byteZ_range b1).
  pose proof (byteZ_range b2).
  rewrite quantumBytes_of_value by (subst val; lia).
  subst val. rewrite bytes_of_value3. reflexivity.
Qed.

Lemma quantum_of_byte1 (b0 : Byte.byte) :
  let val := Z.shiftl (base64.byteZ b0) 16 in
  base64.quantumBytes [Z.shiftr val 18 mod 64; Z.shiftr val 12 mod 64] 2
  = [b0].
Proof.
  intros val. pose proof (byteZ_range b0) as H0.
  assert (Hval : val = base64.byteZ b0 * 65536 + base64.byteZ Byte.x00 * 256
                       + base64.byteZ Byte.x00).
  { subst val. rewrite Z.shiftl_mul_pow2 by lia.
    change (base64.byteZ Byte.x00) with 0. change (2 ^ 16) with 65536. lia. }
  change (base64.quantumBytes
            [Z.shiftr val 18 mod 64; Z.shiftr val 12 mod 64; 0; 0] 2 = [b0]).
  replace 0 with (Z.shiftr val 6 mod 64) at 1.
  2:{ rewrite Hval, Z.shiftr_div_pow2 by lia. change (2 ^ 6) with 64.
      change (base64.byteZ Byte.x00) with 0.
      Z.div_mod_to_equations. lia. }
  replace 0 with (val mod 64).
  2:{ rewrite Hval. change (base64.byteZ Byte.x00) with 0.
      Z.div_mod_to_equations. lia. }
  rewrite Hval. apply (quantum_of_bytes b0 Byte.x00 Byte.x00 2).
Qed.

Lemma quantum_of_byte2 (b0 b1 : Byte.byte) :
  let val := Z.lor (Z.shiftl (base64.byteZ b0) 16)
                   (Z.shiftl (base64.byteZ b1) 8) in
  base64.quantumBytes
    [Z.shiftr val 18 mod 64; Z.shiftr val 12 mod 64; Z.shiftr val 6 mod 64] 3
  = [b0; b1].
Proof.
  intros val.
  pose proof (byteZ_range b0) as H0. pose proof (byteZ_range b1) as H1.
  assert (Hval : val = base64.byteZ b0 * 65536 + base64.byteZ b1 * 256
                       + base64.byteZ Byte.x00).
  { subst val. rewrite <- bytes3_value by (change (base64.byteZ Byte.x00) with 0; lia).
    change (base64.byteZ Byte.x00) with 0. rewrite Z.lor_0_r. reflexivity. }
  change (base64.quantumBytes
            [Z.shiftr val 18 mod 64; Z.shiftr val 12 mod 64;
             Z.shiftr val 6 mod 64; 0] 3 = [b0; b1]).
  replace 0 with (val mod 64).
  2:{ rewrite Hval. change (base64.byteZ Byte.x00) with 0.
      Z.div_mod_to_equations. lia. }
  rewrite Hval. apply (quantum_of_bytes b0 b1 Byte.x00 3).
Qed.

Lemma quantum_of_byte3 (b0 b1 b2 : Byte.byte) :
  let val := Z.lor (Z.lor (Z.shiftl (base64.byteZ b0) 16)
                          (Z.shiftl (base64.byteZ b1) 8))
                   (base64.byteZ b2) in
  base64.quantumBytes
    [Z.shiftr val 18 mod 64; Z.shiftr val 12 mod 64; Z.shiftr val 6 mod 64;
     val mod 64] 4
  = [b0; b1; b2].
Proof.
  intros val. subst val.
  rewrite bytes3_value by apply byteZ_range.
  apply (quantum_of_bytes b0 b1 b2 4).
Qed.

(** [Encoding.Decode] undoes [EncodeToString], from any point between
    two quanta. *)
Lemma decode_EncodeToString (n : nat) :
  forall (src out : bytes) (si total : Z),
    (length src <= n)%nat ->
    base64.decode (base64.EncodeToString src) si total [] out
    = inr (out ++ src)%list.
Proof.
  induction n as [|n IH]; intros src out si total Hlen.
  - destruct src; [|simpl in Hlen; lia]. simpl. rewrite app_nil_r. reflexivity.
  - destruct src as [|b0 [|b1 [|b2 rest]]].
    + simpl. rewrite app_nil_r. reflexivity.
    + cbn [base64.EncodeToString].
      rewrite !(decode_push _ _ _ _ _ _ _ (decodeMap_encodeChar _))
        by (simpl; lia).
      cbn [app]. rewrite decode_padding2, quantum_of_byte1. reflexivity.
    + cbn [base64.EncodeToString].
      rewrite !(decode_push _ _ _ _ _ _ _ (decodeMap_encodeChar _))
        by (simpl; lia).
      cbn [app]. rewrite decode_padding1, quantum_of_byte2. reflexivity.
    + cbn [base64.EncodeToString].
      rewrite !(decode_push _ _ _ _ _ _ _ (decodeMap_encodeChar _))
        by (simpl; lia).
      rewrite (decode_flush _ _ _ _ _ _ _ (decodeMap_encodeChar _))
        by reflexivity.
      cbn [app]. rewrite quantum_of_byte3, IH by (simpl in Hlen; lia).
      rewrite <- app_assoc. reflexivity.
Qed.

(** Decoding the base64 text of a byte slice gives the slice back. *)
Theorem base64_decode_encode (data : bytes) :
  base64.DecodeString (base64.EncodeToString data) = inr data.
Proof.
  unfold base64.DecodeString.
  apply (decode_EncodeToString (length data) data []). lia.
Qed.

(** ** The helpers against the enrichment *)

Section Helpers.

Context {std : Stdlib}.

(** X15. A data URL is never decoded: the base64 decoder stops at the colon
    of [data:], so the strings that [Img2Base64] and [ImgBytes2Base64]
    build are rejected by the decoding that [Txt2Img], [Img2Img] and
    [ExtraSingleImg] apply to the images of a response. *)
Theorem data_url_is_rejected :
  (forall text : string,
      base64.DecodeString ("data:image/png;base64," ++ text)
      = inl (CorruptInputError 4))
  /\ (forall img : Image, decodeRaw (Img2Base64 img) = None)
  /\ (forall data : bytes, decodeRaw (ImgBytes2Base64 data) = None).
Proof.
  assert (Hurl : forall text : string,
             base64.DecodeString ("data:image/png;base64," ++ text)
             = inl (CorruptInputError 4)) by reflexivity.
  split; [exact Hurl|].
  split; intros x; unfold decodeRaw, Img2Base64, ImgBytes2Base64;
    rewrite Hurl; reflexivity.
Qed.

Lemma decodeRaw_Img2RawBase64 (img : Image) :
  decodeRaw (Img2RawBase64 img) = Some (fst (png_Encode img)).
Proof.
  unfold decodeRaw, Img2RawBase64. rewrite base64_decode_encode. reflexivity.
Qed.

(** X16. The bare helper round-trips: the string [Img2RawBase64] builds for
    an image decodes, in the enrichment, to the PNG bytes of that
    image. *)
Theorem raw_base64_round_trip (img : Image) :
  decodeRaw (Img2RawBase64 img) = Some (fst (png_Encode img))
  /\ decodeImage (Img2RawBase64 img) = decodePNG (fst (png_Encode img)).
Proof.
  split; [apply decodeRaw_Img2RawBase64|].
  unfold decodeImage. rewrite decodeRaw_Img2RawBase64. reflexivity.
Qed.

(** X17. A response whose images are all data URLs built by [ImgBytes2Base64]
    comes back from [Txt2Img] with no raw and no parsed image at all. *)
Theorem data_url_images_are_dropped (c : Client) (opt : Txt2ImageOption.t)
    (res : Txt2ImageResponse.t Image) (tr : list Event)
    (datas : list bytes) :
  run (Txt2Img c opt) = (Ok res, tr) ->
  Txt2ImageResponse.Images res = map ImgBytes2Base64 datas ->
  Txt2ImageResponse.RawImages res = []
  /\ Txt2ImageResponse.ParsedImages res = [].
Proof.
  intros Hrun Himages. rewrite Txt2Img_run in Hrun.
  destruct (run (doReq _ _ _ _ _ _)) as [[res0|e|msg] tr0]; try discriminate.
  injection Hrun as <- <-. simpl in *. rewrite omap_decodeImage, Himages.
  clear Himages.
  assert (Hnone : omap decodeRaw (map ImgBytes2Base64 datas) = []).
  { unfold omap. induction datas as [|d datas IH]; [reflexivity|]. exact IH. }
  rewrite Hnone. split; reflexivity.
Qed.

(** X18. A response whose images were built by [Img2RawBase64] comes back
    from [Txt2Img] with the PNG bytes of each image, in order. *)
Theorem raw_base64_images_are_kept (c : Client) (opt : Txt2ImageOption.t)
    (res : Txt2ImageResponse.t Image) (tr : list Event)
    (imgs : list Image) :
  run (Txt2Img c opt) = (Ok res, tr) ->
  Txt2ImageResponse.Images res = map Img2RawBase64 imgs ->
  Txt2ImageResponse.RawImages res
  = map (fun img => fst (png_Encode img)) imgs.
Proof.
  intros Hrun Himages. rewrite Txt2Img_run in Hrun.
  destruct (run (doReq _ _ _ _ _ _)) as [[res0|e|msg] tr0]; try discriminate.
  injection Hrun as <- <-. simpl in *. rewrite Himages. clear Himages.
  unfold omap. induction imgs as [|img imgs IH]; [reflexivity|].
  cbn [map list_omap].
  rewrite decodeRaw_Img2RawBase64, IH. reflexivity.
Qed.

(** X19. [ExtraSingleImg] never fails on an image that does not decode: when
    [doReq] succeeds it returns the response with [html_info] and
    [image] as decoded, the raw image set when the string is base64 and
    the parsed image set when the bytes are a PNG file as well, each
    left as it was otherwise; it adds nothing to the trace. *)
Theorem single_image_enrichment (c : Client) (opt : ExtraSingleImgOption.t)
    (res : ExtraSingleImgResponse.t Image) (tr : list Event) :
  run (doReq c "/extra-single-image" http.MethodPost
         (addressOf (ExtraSingleImgOption.fields opt)) http.StatusOK
         (@ExtraSingleImgResponse.zero Image)) = (Ok res, tr) ->
  exists res' : ExtraSingleImgResponse.t Image,
    run (ExtraSingleImg c opt) = (Ok res', tr)
    /\ ExtraSingleImgResponse.HTMLInfo res'
       = ExtraSingleImgResponse.HTMLInfo res
    /\ ExtraSingleImgResponse.Image res' = ExtraSingleImgResponse.Image res
    /\ ExtraSingleImgResponse.RawImage res'
       = match decodeRaw (ExtraSingleImgResponse.Image res) with
         | Some data => data
         | None => ExtraSingleImgResponse.RawImage res
         end
    /\ ExtraSingleImgResponse.ParsedImage res'
       = match decodeImage (ExtraSingleImgResponse.Image res) with
         | Some img => Some img
         | None => ExtraSingleImgResponse.ParsedImage res
         end.
Proof.
  intros Hreq. rewrite ExtraSingleImg_run, Hreq.
  eexists. split; [reflexivity|].
  unfold decodeImage.
  destruct (decodeRaw (ExtraSingleImgResponse.Image res)) as [data|];
    simpl; repeat split.
Qed.

End Helpers.

(** ** The encoder on the request structs *)

Section Encoder.

Context {std : Stdlib}.

Lemma marshal_VStruct (fs : list (string * bool * GoValue)) :
  marshal (VStruct fs)
  = match marshalFields fs with
    | inl e => inl e
    | inr ms => inr (JObject ms)
    end.
Proof.
  induction fs as [|[[name omitEmpty] fv] fs IH]; [reflexivity|].
  simpl in *.
  destruct (omitEmpty && isEmptyValue fv); [exact IH|].
  destruct (marshal fv) as [e|j]; [reflexivity|].
  destruct (marshalFields fs) as [e|ms];
    match type of IH with
    | match ?x with _ => _ end = _ => destruct x; congruence
    end.
Qed.

(** The keys of an encoded struct are the keys of the fields that are
    not omitted, in declaration order. *)
Lemma marshalFields_keys (fs : list (string * bool * GoValue))
    (ms : list (string * json)) :
  marshalFields fs = inr ms ->
  map fst ms
  = map (fun f => fst (fst f))
      (List.filter (fun f => negb (snd (fst f) && isEmptyValue (snd f))) fs).
Proof.
  revert ms. induction fs as [|[[name omitEmpty] fv] fs IH]; intros ms Hms.
  - injection Hms as <-. reflexivity.
  - simpl in Hms. cbn [List.filter fst snd].
    destruct (omitEmpty && isEmptyValue fv); simpl; [apply IH, Hms|].
    destruct (marshal fv) as [e|j]; [discriminate|].
    destruct (marshalFields fs) as [e|ms']; [discriminate|].
    injection Hms as <-. simpl. f_equal. apply IH. reflexivity.
Qed.

Lemma exponent_of_zero (bits : float32) :
  float32_isZero bits = true -> float32_exp bits = 0.
Proof.
  unfold float32_isZero, float32_exp. intros Hz. apply Z.eqb_eq in Hz.
  change 255 with (Z.shiftr 2139095040 23).
  rewrite <- Z.shiftr_land.
  change 2139095040 with (Z.land 2147483647 2139095040).
  rewrite Z.land_assoc, Hz. reflexivity.
Qed.

(** A field that holds an infinity or a NaN makes the encoding fail. *)
Lemma marshalFields_non_finite (fs : list (string * bool * GoValue))
    (name : string) (flag : bool) (bits : float32) :
  In (name, flag, VFloat32 bits) fs ->
  float32_exp bits = 255 ->
  exists e, marshalFields fs = inl e.
Proof.
  intros Hin Hexp.
  induction fs as [|[[name' omitEmpty] fv] fs IH]; [destruct Hin|].
  cbn [marshalFields]. destruct Hin as [Heq|Hin].
  - injection Heq as -> -> ->. cbn [isEmptyValue marshal].
    destruct (float32_isZero bits) eqn:Hz.
    + apply exponent_of_zero in Hz. congruence.
    + rewrite andb_false_r, Hexp. cbn [Z.eqb Pos.eqb]. eauto.
  - destruct (IH Hin) as (e & He). rewrite He.
    destruct (omitEmpty && isEmptyValue fv); [eauto|].
    destruct (marshal fv); eauto.
Qed.

(** Every field of the three request structs is tagged [omitempty]. *)
Lemma request_fields_omitempty (call : Call)
    (fs : list (string * bool * GoValue)) :
  bodyOf call = addressOf fs ->
  Forall (fun f => snd (fst f) = true) fs.
Proof.
  destruct call; simpl; try discriminate;
    intros [= <-]; repeat constructor.
Qed.

Lemma struct_keys (fs : list (string * bool * GoValue))
    (ms : list (string * json)) :
  Forall (fun f => snd (fst f) = true) fs ->
  marshal (VStruct fs) = inr (JObject ms) ->
  map fst ms
  = map (fun f => fst (fst f))
      (List.filter (fun f => negb (isEmptyValue (snd f))) fs).
Proof.
  intros Hall Hms. rewrite marshal_VStruct in Hms.
  destruct (marshalFields fs) as [e|ms'] eqn:Hfs; [discriminate|].
  injection Hms as <-. rewrite (marshalFields_keys _ _ Hfs).
  f_equal. apply filter_ext_in. intros f Hf.
  rewrite List.Forall_forall in Hall. rewrite (Hall f Hf). reflexivity.
Qed.

(** X20. The keys of a request body are the JSON names of the fields that are
    not empty, in declaration order: a field at its zero value (a zero
    count or seed, [false], an empty string or list, a nil pointer) is
    never sent, set on purpose or not. *)
Theorem body_keys_are_non_empty_fields (call : Call)
    (fs : list (string * bool * GoValue)) (ms : list (string * json)) :
  bodyOf call = addressOf fs ->
  marshal (VStruct fs) = inr (JObject ms) ->
  map fst ms
  = map (fun f => fst (fst f))
      (List.filter (fun f => negb (isEmptyValue (snd f))) fs).
Proof.
  intros Hbody Hms.
  apply struct_keys; [apply (request_fields_omitempty call), Hbody|exact Hms].
Qed.

(** X2. An infinity or a NaN in a [float32] field of the options makes the
    operation return the encode error, and no request is sent. *)
Theorem non_finite_float_is_encode_error (c : Client) (call : Call)
    (fs : list (string * bool * GoValue)) (name : string) (flag : bool)
    (bits : float32) :
  bodyOf call = addressOf fs ->
  In (name, flag, VFloat32 bits) fs ->
  float32_exp bits = 255 ->
  exists err,
    invoke c call
    = (Failed (wrapError (Some err) None "failed to encode body"), [EvEncode]).
Proof.
  intros Hbody Hin Hexp.
  destruct (marshalFields_non_finite fs name flag bits Hin Hexp) as (e & He).
  assert (Henc : encodeBody (bodyOf call) = inl e).
  { rewrite Hbody. unfold encodeBody, addressOf, Encode.
    change (marshal (VPtr (Some (VStruct fs)))) with (marshal (VStruct fs)).
    rewrite marshal_VStruct, He. reflexivity. }
  exists e.
  destruct (invoke_run c call _ _ (surjective_pairing _))
    as (R & dec & result & r' & Hrun & Hr & _).
  rewrite (surjective_pairing (invoke c call)), Hr.
  destruct Hrun; try congruence.
  rewrite (encodeBody_error_events _ _ Henc).
  simpl. repeat f_equal. congruence.
Qed.

Lemma sendsKey_spec (key : string) (fs : list (string * bool * GoValue)) :
  In key (map (fun f : string * bool * GoValue => fst (fst f))
            (List.filter (fun f => negb (isEmptyValue (snd f))) fs))
  <-> sendsKey key fs = true.
Proof.
  unfold sendsKey. rewrite in_map_iff, existsb_exists. split.
  - intros (f & <- & Hf). apply filter_In in Hf. destruct Hf as [Hf Hne].
    exists f. split; [exact Hf|]. rewrite String.eqb_refl. exact Hne.
  - intros (f & Hf & Hboth). apply andb_true_iff in Hboth.
    destruct Hboth as [Hkey Hne]. apply String.eqb_eq in Hkey.
    exists f. split; [exact Hkey|]. apply filter_In. split; assumption.
Qed.

(** X21. [Txt2ImageOption] sends its denoising strength under the key
    [denoising_strenght], and never a key [denoising_strength];
    [Img2ImgOption] sends its own under [denoising_strength]. *)
Theorem denoising_strength_keys :
  (forall (opt : Txt2ImageOption.t) (ms : list (string * json)),
      marshal (VStruct (Txt2ImageOption.fields opt)) = inr (JObject ms) ->
      (In "denoising_strenght" (map fst ms) <->
       float32_isZero (Txt2ImageOption.DenoisingStrength opt) = false)
      /\ ~ In "denoising_strength" (map fst ms))
  /\ (forall (opt : Img2ImgOption.t) (ms : list (string * json)),
        marshal (VStruct (Img2ImgOption.fields opt)) = inr (JObject ms) ->
        (In "denoising_strength" (map fst ms) <->
         float32_isZero (Img2ImgOption.DenoisingStrength opt) = false)).
Proof.
  split.
  - intros opt ms Hms.
    rewrite (struct_keys _ ms
               (request_fields_omitempty (CallTxt2Img opt) _ eq_refl) Hms).
    rewrite !sendsKey_spec. unfold sendsKey.
    cbn [existsb Txt2ImageOption.fields fst snd String.eqb Ascii.eqb Bool.eqb
         andb orb].
    rewrite orb_false_r. cbn [isEmptyValue].
    split; [|discriminate].
    destruct (float32_isZero _); split; intros Hx;
      try reflexivity; discriminate Hx.
  - intros opt ms Hms.
    rewrite (struct_keys _ ms
               (request_fields_omitempty (CallImg2Img opt) _ eq_refl) Hms).
    rewrite !sendsKey_spec. unfold sendsKey.
    cbn [existsb Img2ImgOption.fields fst snd String.eqb Ascii.eqb Bool.eqb
         andb orb].
    rewrite orb_false_r. cbn [isEmptyValue].
    destruct (float32_isZero _); split; intros Hx;
      try reflexivity; discriminate Hx.
Qed.

End Encoder.

(** ** The further properties at the fixtures *)

(** X1 at the fixtures: options with a NaN for the guidance scale. *)
Lemma encode_error_witness :
  invoke (std := Fixture.stdlib) (Fixture.client 200 "{images}")
    (CallTxt2Img Faults.nanOptions)
  = (Failed (wrapError (Some (ErrorString "json: unsupported value: NaN")) None
               "failed to encode body"), [EvEncode]).
Proof.
  pose (c := Fixture.client 200 "{images}").
  assert (Henc : encodeBody (std := Fixture.stdlib)
                   (bodyOf (CallTxt2Img Faults.nanOptions))
                 = inl (ErrorString "json: unsupported value: NaN")).
  { vm_compute. reflexivity. }
  destruct (encode_error_sends_nothing (std := Fixture.stdlib) c
              (CallTxt2Img Faults.nanOptions) _ _ _
              (surjective_pairing _) Henc) as [Hr Htr].
  rewrite (surjective_pairing (invoke c _)), Hr, Htr. reflexivity.
Defined.

(** X2 at the fixtures: the NaN is in the field [cfg_scale]. *)
Lemma non_finite_float_witness :
  exists err,
    invoke (std := Fixture.stdlib) (Fixture.client 200 "{images}")
      (CallTxt2Img Faults.nanOptions)
    = (Failed (wrapError (Some err) None "failed to encode body"), [EvEncode]).
Proof.
  apply (non_finite_float_is_encode_error (std := Fixture.stdlib)
           (Fixture.client 200 "{images}") (CallTxt2Img Faults.nanOptions)
           (Txt2ImageOption.fields Faults.nanOptions)
           "cfg_scale" true Faults.NaN).
  - reflexivity.
  - right. right. right. left. reflexivity.
  - reflexivity.
Defined.

(** X3 at the fixtures: a base URL without a scheme. *)
Lemma construction_error_witness :
  fst (invoke (std := Faults.stdlib [])
         (fst (NewClient ":7860" "" "" (Some (Fixture.server 200 "{images}"))))
         CallGetMemory)
  = Failed (wrapError (Some (ErrorString "missing protocol scheme")) None
              "failed to initialize request").
Proof.
  pose (c := fst (NewClient ":7860" "" ""
                    (Some (Fixture.server 200 "{images}")))).
  destruct (construction_error_sends_nothing (std := Faults.stdlib []) c
              CallGetMemory _ _ None (ErrorString "missing protocol scheme")
              (surjective_pairing _) eq_refl eq_refl) as [Hr _].
  exact Hr.
Defined.

(** X4 at the fixtures: an HTTP client that cannot connect. *)
Lemma transport_error_witness :
  fst (invoke (std := Fixture.stdlib)
         (fst (NewClient "" "" "" (Some Faults.refusing))) CallGetMemory)
  = Failed (wrapError
              (Some (ErrorString
                       "dial tcp 127.0.0.1:7860: connect: connection refused"))
              None "failed to do request").
Proof.
  pose (c := fst (NewClient "" "" "" (Some Faults.refusing))).
  assert (Hin : In (EvDo (requestOf c "/memory" "GET" None)
                      (inl (ErrorString
                              "dial tcp 127.0.0.1:7860: connect: connection refused")))
                  (snd (invoke (std := Fixture.stdlib) c CallGetMemory))).
  { vm_compute. right. left. reflexivity. }
  destruct (transport_error_is_returned (std := Fixture.stdlib) c
              CallGetMemory _ _ _ _ (surjective_pairing _) Hin) as [Hr _].
  exact Hr.
Defined.

(** X5 at the fixtures: a body that breaks off, under status 500. *)
Lemma read_error_witness :
  let resp := http.Response.mk 500
                (bytes_of_string "{ima", Some (ErrorString "unexpected EOF")) in
  fst (invoke (std := Fixture.stdlib)
         (fst (NewClient "" "" "" (Some (Faults.truncating 500))))
         CallGetMemory)
  = Failed (wrapError (Some (ErrorString "unexpected EOF")) (Some resp)
              "failed to read response body").
Proof.
  intros resp.
  pose (c := fst (NewClient "" "" "" (Some (Faults.truncating 500)))).
  assert (Hin : In (EvDo (requestOf c "/memory" "GET" None) (inr resp))
                  (snd (invoke (std := Fixture.stdlib) c CallGetMemory))).
  { vm_compute. right. left. reflexivity. }
  destruct (read_error_is_returned (std := Fixture.stdlib) c
              CallGetMemory _ _ _ resp (bytes_of_string "{ima")
              (ErrorString "unexpected EOF")
              (surjective_pairing _) Hin eq_refl) as [Hr _].
  exact Hr.
Defined.

(** X6 at the fixtures: a server that answers 500. *)
Lemma response_body_is_closed_witness :
  exists tr',
    snd (invoke (std := Fixture.stdlib) (Fixture.client 500 "boom")
           CallGetMemory) = (tr' ++ [EvClose])%list
    /\ ~ In EvClose tr'.
Proof.
  pose (c := Fixture.client 500 "boom").
  destruct (response_body_is_closed (std := Fixture.stdlib) c CallGetMemory
              _ _ (surjective_pairing _)) as [Hclosed _].
  apply Hclosed.
  exists (requestOf c "/memory" "GET" None),
         (http.Response.mk 500 (bytes_of_string "boom", None)).
  vm_compute. right. left. reflexivity.
Defined.

(** X7 at the fixtures: a call that sends one request, and a nil HTTP client that sends none. *)
Lemma at_most_one_request_witness :
  (length (requests (snd (invoke (std := Fixture.stdlib)
                            (Fixture.client 200 "{images}")
                            (CallTxt2Img Txt2ImageOption.zero)))) <= 1)%nat
  /\ requests (snd (invoke (std := Fixture.stdlib)
                      (fst (NewClient "" "" "" None)) CallGetMemory)) = [].
Proof.
  split.
  - apply (at_most_one_request (std := Fixture.stdlib)
             (Fixture.client 200 "{images}")
             (CallTxt2Img Txt2ImageOption.zero) _ _ (surjective_pairing _)).
  - apply (at_most_one_request (std := Fixture.stdlib)
             (fst (NewClient "" "" "" None)) CallGetMemory _ _
             (surjective_pairing _)).
    right. right. reflexivity.
Defined.

(** X8 at the fixtures: [Txt2Img] on the zero options. *)
Lemma request_method_and_body_witness :
  let c := Fixture.client 200 "{images}" in
  let req := requestOf c "/txt2img" "POST"
               (Some (bytes_of_string ("{}" ++ newline))) in
  http.Request.Method req = "POST"
  /\ encodeBody (std := Fixture.stdlib)
       (bodyOf (CallTxt2Img Txt2ImageOption.zero))
     = inr (http.Request.Body req).
Proof.
  intros c req.
  apply (request_method_and_body (std := Fixture.stdlib) c
           (CallTxt2Img Txt2ImageOption.zero) req
           (inr (http.Response.mk 200 (bytes_of_string "{images}", None)))).
  vm_compute. right. right. left. reflexivity.
Defined.

(** X9 at the fixtures: a client that holds a username and a password. *)
Lemma request_headers_witness :
  let c := mkClient (Some (Fixture.server 200 "{images}"))
             "http://sd.local:7860" "alice" "secret" in
  http.Request.Header (requestOf c "/memory" "GET" None)
  = <["Authorization" := ["Basic YWxpY2U6c2VjcmV0"]]>
      (<["Content-Type" := ["application/json"]]> ∅).
Proof.
  intros c.
  apply (request_headers (std := Fixture.stdlib) c CallGetMemory
           (requestOf c "/memory" "GET" None)
           (inr (http.Response.mk 200 (bytes_of_string "{images}", None)))).
  vm_compute. right. left. reflexivity.
Defined.

(** X10 at the fixtures: a server that answers 200 with a body the decoder knows. *)
Lemma success_witness :
  fst (invoke (std := Fixture.stdlib) (Fixture.client 200 "{images}")
         CallGetMemory) = Ok tt.
Proof.
  pose (c := Fixture.client 200 "{images}").
  apply (success_iff (std := Fixture.stdlib) c CallGetMemory _ _
           (surjective_pairing _)).
  exists (requestOf c "/memory" "GET" None),
         (http.Response.mk 200 (bytes_of_string "{images}", None)),
         (bytes_of_string "{images}").
  split; [vm_compute; right; left; reflexivity|].
  repeat split.
Defined.

(** X11 at the fixtures: a server that answers 200 with the body [boom]. *)
Lemma decoder_sees_expected_status_witness :
  exists req resp,
    In (EvDo req (inr resp))
      (snd (invoke (std := Fixture.stdlib) (Fixture.client 200 "boom")
              CallGetMemory))
    /\ http.Response.StatusCode resp = http.StatusOK
    /\ http.Response.Body resp = (bytes_of_string "boom", None).
Proof.
  apply (decoder_sees_expected_status_only (std := Fixture.stdlib)
           (Fixture.client 200 "boom") CallGetMemory _ _
           (bytes_of_string "boom") (surjective_pairing _)).
  vm_compute. right. right. right. left. reflexivity.
Defined.

(** X12 at the fixtures: the status error of a server that answers 500. *)
Lemma error_response_witness :
  let resp := http.Response.mk 500 (bytes_of_string "boom", None) in
  exists req,
    In (EvDo req (inr resp))
      (snd (invoke (std := Fixture.stdlib) (Fixture.client 500 "boom")
              CallGetMemory)).
Proof.
  intros resp.
  pose (c := Fixture.client 500 "boom").
  pose (e := wrapError None (Some resp) "got bad status 500, body: boom").
  assert (Hinv : invoke (std := Fixture.stdlib) c CallGetMemory
                 = (Failed e,
                    snd (invoke (std := Fixture.stdlib) c CallGetMemory))).
  { vm_compute. reflexivity. }
  apply (error_response_iff (std := Fixture.stdlib) c CallGetMemory e _ resp
           Hinv).
  reflexivity.
Defined.

(** X13 at the fixtures: the status error against the decode error. *)
Lemma unwrap_nil_witness :
  let resp := http.Response.mk 500 (bytes_of_string "boom", None) in
  Error_Unwrap (wrapError None (Some resp) "got bad status 500, body: boom")
  = None
  /\ Error_Unwrap
       (wrapError (Some Fixture.syntaxError)
          (Some (http.Response.mk 200 (bytes_of_string "boom", None)))
          "failed to parse response")
     <> None.
Proof.
  intros resp.
  pose (c := Fixture.client 500 "boom").
  pose (e := wrapError None (Some resp) "got bad status 500, body: boom").
  assert (Hinv : invoke (std := Fixture.stdlib) c CallGetMemory
                 = (Failed e,
                    snd (invoke (std := Fixture.stdlib) c CallGetMemory))).
  { vm_compute. reflexivity. }
  split; [|discriminate].
  apply (unwrap_nil_iff_status_error (std := Fixture.stdlib) c CallGetMemory
           e _ Hinv).
  exists resp, (bytes_of_string "boom").
  repeat split. discriminate.
Defined.

(** X14 at the fixtures: a client built on a nil HTTP client. *)
Lemma panic_witness :
  exists msg,
    fst (invoke (std := Fixture.stdlib) (fst (NewClient "" "" "" None))
           CallGetMemory) = Panic msg.
Proof.
  apply (panic_iff_nil_client (std := Fixture.stdlib)
           (fst (NewClient "" "" "" None)) CallGetMemory _ _
           (surjective_pairing _)).
  split; [reflexivity|]. split; [exists None; reflexivity|reflexivity].
Defined.

(** X17 at the fixtures: a response of two data URLs. *)
Lemma data_url_images_witness :
  let std := Faults.stdlib [ImgBytes2Base64 Fixture.pngFile;
                            ImgBytes2Base64 Fixture.textFile] in
  exists res,
    fst (run (Txt2Img (std := std) (Fixture.client 200 "{images}")
                Txt2ImageOption.zero)) = Ok res
    /\ length (Txt2ImageResponse.Images res) = 2%nat
    /\ Txt2ImageResponse.RawImages res = []
    /\ Txt2ImageResponse.ParsedImages res = [].
Proof.
  intros std.
  pose (c := Fixture.client 200 "{images}").
  pose (res := Txt2ImageResponse.mk (Img := Image (Stdlib := std))
                 [ImgBytes2Base64 Fixture.pngFile;
                  ImgBytes2Base64 Fixture.textFile] None "x" [] []).
  assert (Hrun : run (Txt2Img (std := std) c Txt2ImageOption.zero)
                 = (Ok res, snd (run (Txt2Img (std := std) c
                                        Txt2ImageOption.zero)))).
  { vm_compute. reflexivity. }
  destruct (data_url_images_are_dropped (std := std) c Txt2ImageOption.zero
              res _ [Fixture.pngFile; Fixture.textFile] Hrun eq_refl)
    as [Hraw Hparsed].
  exists res. fold c. rewrite Hrun. repeat split; assumption.
Defined.

(** X18 at the fixtures: a response of two bare base64 strings. *)
Lemma raw_base64_images_witness :
  let std := Faults.stdlib [base64.EncodeToString Fixture.pngFile;
                            base64.EncodeToString Fixture.textFile] in
  exists res,
    fst (run (Txt2Img (std := std) (Fixture.client 200 "{images}")
                Txt2ImageOption.zero)) = Ok res
    /\ Txt2ImageResponse.RawImages res = [Fixture.pngFile; Fixture.textFile].
Proof.
  intros std.
  pose (c := Fixture.client 200 "{images}").
  pose (res := Txt2ImageResponse.mk (Img := Image (Stdlib := std))
                 [base64.EncodeToString Fixture.pngFile;
                  base64.EncodeToString Fixture.textFile] None "x"
                 [Fixture.pngFile] [Fixture.pngFile; Fixture.textFile]).
  assert (Hrun : run (Txt2Img (std := std) c Txt2ImageOption.zero)
                 = (Ok res, snd (run (Txt2Img (std := std) c
                                        Txt2ImageOption.zero)))).
  { vm_compute. reflexivity. }
  exists res. fold c. rewrite Hrun. split; [reflexivity|].
  apply (raw_base64_images_are_kept (std := std) c Txt2ImageOption.zero
           res _ [Fixture.pngFile; Fixture.textFile] Hrun eq_refl).
Defined.

(** X19 at the fixtures: a response whose image is a PNG file in base64. *)
Lemma single_image_witness :
  exists res,
    fst (run (ExtraSingleImg (std := Fixture.stdlib)
                (Fixture.client 200 "{images}") ExtraSingleImgOption.zero))
    = Ok res
    /\ ExtraSingleImgResponse.RawImage res = Fixture.pngFile
    /\ ExtraSingleImgResponse.ParsedImage res = Some Fixture.pngFile.
Proof.
  pose (c := Fixture.client 200 "{images}").
  pose (res0 := ExtraSingleImgResponse.mk
                  (Img := Image (Stdlib := Fixture.stdlib))
                  "" (base64.EncodeToString Fixture.pngFile) None []).
  destruct (single_image_enrichment (std := Fixture.stdlib) c
              ExtraSingleImgOption.zero res0
              (snd (run (doReq (std := Fixture.stdlib) c "/extra-single-image"
                           http.MethodPost
                           (addressOf (ExtraSingleImgOption.fields
                                         ExtraSingleImgOption.zero))
                           http.StatusOK
                           (@ExtraSingleImgResponse.zero
                              (Image (Stdlib := Fixture.stdlib)))))))
    as (res & Hrun & _ & _ & Hraw & Hparsed).
  { vm_compute. reflexivity. }
  exists res. fold c. rewrite Hrun. split; [reflexivity|].
  split; [rewrite Hraw|rewrite Hparsed]; vm_compute; reflexivity.
Defined.

(** X20 at the fixtures: options with a prompt, a step count, a zero seed and a denoising strength. *)
Lemma body_keys_witness :
  map fst [("prompt", JString "a cat"); ("steps", JNumber "20");
           ("denoising_strenght", JNumber "0")]
  = ["prompt"; "steps"; "denoising_strenght"].
Proof.
  rewrite (body_keys_are_non_empty_fields (std := Fixture.stdlib)
             (CallTxt2Img Faults.catOptions)
             (Txt2ImageOption.fields Faults.catOptions) _ eq_refl).
  - vm_compute. reflexivity.
  - vm_compute. reflexivity.
Defined.

(** X21 at the fixtures: the same options. *)
Lemma denoising_strength_keys_witness :
  In "denoising_strenght"
    (map fst [("prompt", JString "a cat"); ("steps", JNumber "20");
              ("denoising_strenght", JNumber "0")])
  /\ ~ In "denoising_strength"
       (map fst [("prompt", JString "a cat"); ("steps", JNumber "20");
                 ("denoising_strenght", JNumber "0")]).
Proof.
  destruct (denoising_strength_keys (std := Fixture.stdlib)) as [Htxt _].
  destruct (Htxt Faults.catOptions
              [("prompt", JString "a cat"); ("steps", JNumber "20");
               ("denoising_strenght", JNumber "0")]) as [Hiff Hnot].
  { vm_compute. reflexivity. }
  split; [apply Hiff; vm_compute; reflexivity|exact Hnot].
Defined.
